(** * Spiritual Count: the service worker (sw.js)

    A shallow embedding of the caching and request-routing logic of
    [sw.js]: the path predicates and the fetch dispatch, the three strategy
    handlers, the install and activate phases and the message handler,
    over an explicit model of the host's CacheStorage, network and reply
    ports. *)

From Stdlib Require Import ZArith Lia Ascii.
From stdpp Require Import base option list strings gmap.

Local Open Scope string_scope.
Local Open Scope list_scope.

(** ** Strings as JavaScript uses them *)

Module JsString.

(** [String.prototype.endsWith(searchString)]: with [len] the length of the
    receiver and [searchLength] that of the argument, the start index is
    [len - searchLength]; a negative start gives [false], otherwise the
    code units from [start] on are compared with the argument. *)
Definition endsWith (s searchString : string) : bool :=
  let len := String.length s in
  let searchLength := String.length searchString in
  if (len <? searchLength)%nat then false
  else String.eqb (String.substring (len - searchLength) searchLength s) searchString.

(** [s] ends with [suf], stated without reference to indices. *)
Definition is_suffix (suf s : string) : Prop := exists pre, s = pre +:+ suf.

(** [String.prototype.includes(searchString)]. *)
Fixpoint includes (s searchString : string) : bool :=
  String.prefix searchString s ||
  match s with
  | EmptyString => false
  | String _ s' => includes s' searchString
  end.

End JsString.

Import JsString.

(** ** Configuration constants (sw.js, lines 4-26) *)

Definition CACHE_NAME : string := "spiritual-count-v1".
Definition CACHE_VERSION : string := "1.0.0".

Definition CORE_ASSETS : list string :=
  [ "/"; "/index.html"; "/about.html"; "/tracker.html"; "/themes.html";
    "/contact.html"; "/style.css"; "/script.js" ].

Definition OPTIONAL_ASSETS : list string := [ "/manifest.json"; "/favicon.ico" ].

Definition ALL_ASSETS : list string := CORE_ASSETS ++ OPTIONAL_ASSETS.

(** ** Path predicates and the fetch dispatch (sw.js, lines 126-151) *)

Definition staticExtensions : list string :=
  [ ".css"; ".js"; ".json"; ".ico"; ".png"; ".jpg"; ".jpeg"; ".svg"; ".woff"; ".woff2" ].

(** [staticExtensions.some(ext => pathname.endsWith(ext))] *)
Definition isStaticAsset (pathname : string) : bool :=
  existsb (fun ext => endsWith pathname ext) staticExtensions.

(** [pathname.endsWith('.html') || pathname === '/'] *)
Definition isHTMLPage (pathname : string) : bool :=
  endsWith pathname ".html" || String.eqb pathname "/".

(** The three branches of the fetch listener's dispatch. *)
Inductive RoutingCategory : Type := StaticAsset | HTMLPage | Other.

(** The [if / else if / else] of the fetch listener (lines 126-135), as a
    function of [url.pathname]. *)
Definition classify (pathname : string) : RoutingCategory :=
  if isStaticAsset pathname then StaticAsset
  else if isHTMLPage pathname then HTMLPage
  else Other.

(** The extension names as the specification lists them, without the dot. *)
Definition static_extension_names : list string :=
  [ "css"; "js"; "json"; "ico"; "png"; "jpg"; "jpeg"; "svg"; "woff"; "woff2" ].

(** The text after the last dot of a path, if the path has a dot. *)
Fixpoint extension_of (s : string) : option string :=
  match s with
  | EmptyString => None
  | String c s' =>
      match extension_of s' with
      | Some e => Some e
      | None => if Ascii.eqb c "."%char then Some s' else None
      end
  end.

(** ** Requests and responses *)

(** A parsed URL, as [new URL(request.url)] gives it; [href] is the
    serialised form, which the Cache API uses as the key of an entry. *)
Record URL : Type := mkURL { origin : string; pathname : string; search : string }.

Definition href (u : URL) : string := origin u +:+ pathname u +:+ search u.

Record Request : Type := mkRequest { method : string; url : URL }.

Record Response : Type := mkResponse {
  status : Z;
  statusText : string;
  headers : list (string * string);
  body : string
}.

(** [response.ok]: the status is in the range 200-299. *)
Definition ok (r : Response) : bool := ((200 <=? status r) && (status r <=? 299))%Z.

(** [response.clone()]: responses are immutable values here, a clone is a
    copy of the same status, headers and body. *)
Definition clone (r : Response) : Response := r.

(** ** The host: network, storage layer, worker location *)

Inductive Error : Type :=
  | TypeError (msg : string)
  | QuotaExceededError
  | JsError (msg : string).

(** What the worker cannot decide by itself: its own origin, what the
    network answers to a request ([None]: the fetch promise rejects), and
    whether the storage layer accepts a write (a refusal rejects the
    promise of [cache.put] or [cache.addAll]). *)
Record Host : Type := mkHost {
  self_origin : string;
  network : Request -> option Response;
  storage_accepts : string -> Response -> bool
}.

(** ** CacheStorage *)

(** The named caches in creation order, which is the order of
    [caches.keys()] and the order in which [caches.match] searches them.
    One cache maps the URL of a request to the stored response. *)
Abbreviation Cache := (gmap string Response).
Abbreviation CacheStorage := (list (string * gmap string Response)).

Module CS.

Fixpoint lookup (name : string) (cs : CacheStorage) : option Cache :=
  match cs with
  | [] => None
  | (n, c) :: rest => if String.eqb n name then Some c else lookup name rest
  end.

Definition keys (cs : CacheStorage) : list string := cs.*1.

Definition has (name : string) (cs : CacheStorage) : bool :=
  match lookup name cs with Some _ => true | None => false end.

(** [caches.open] creates the cache when it does not exist yet. *)
Definition open (name : string) (cs : CacheStorage) : CacheStorage :=
  if has name cs then cs else cs ++ [(name, ∅)].

Definition delete (name : string) (cs : CacheStorage) : CacheStorage :=
  filter (fun e => e.1 ≠ name) cs.

Fixpoint put (name key : string) (r : Response) (cs : CacheStorage) : CacheStorage :=
  match cs with
  | [] => []
  | (n, c) :: rest =>
      if String.eqb n name then (n, <[key := r]> c) :: rest
      else (n, c) :: put name key r rest
  end.

(** [caches.match]: the first cache, in creation order, holding the key. *)
Fixpoint match_ (key : string) (cs : CacheStorage) : option Response :=
  match cs with
  | [] => None
  | (_, c) :: rest =>
      match c !! key with
      | Some r => Some r
      | None => match_ key rest
      end
  end.

(** Cache names are unique. *)
Definition wf (cs : CacheStorage) : Prop := NoDup (keys cs).

End CS.

(** ** Observable effects *)

Inductive Message : Type :=
  | MsgVersion (version : string)
  | MsgSkippedWaiting
  | MsgCacheStatus (hasCache : bool) (cacheName : string).

Inductive Event : Type :=
  | EvFetch (request : Request)
  | EvCacheOpen (name : string)
  | EvCachePut (name key : string)
  | EvCacheDelete (name : string)
  | EvSkipWaiting
  | EvClientsClaim
  | EvPostMessage (port : nat) (m : Message).

Definition is_fetch (e : Event) : bool :=
  match e with EvFetch _ => true | _ => false end.

Definition is_postMessage (e : Event) : bool :=
  match e with EvPostMessage _ _ => true | _ => false end.

Definition is_skipWaiting (e : Event) : bool :=
  match e with EvSkipWaiting => true | _ => false end.

(** The cache an event writes to or creates, if it does. *)
Definition written_cache (e : Event) : option string :=
  match e with
  | EvCacheOpen n | EvCachePut n _ => Some n
  | _ => None
  end.

(** ** Promises: state, rejection and the events performed *)

Inductive Outcome (A : Type) : Type :=
  | Fulfilled (a : A)
  | Rejected (e : Error).
Arguments Fulfilled {A} a.
Arguments Rejected {A} e.

(** An asynchronous computation run to completion from a CacheStorage: how
    its promise settles, the storage it leaves and the events it performed,
    in order. *)
Definition M (A : Type) : Type := CacheStorage -> Outcome A * CacheStorage * list Event.

#[export] Instance M_ret : MRet M := fun A a cs => (Fulfilled a, cs, []).

#[export] Instance M_bind : MBind M := fun A B f m cs =>
  match m cs with
  | (Fulfilled a, cs1, evs1) =>
      let '(o, cs2, evs2) := f a cs1 in (o, cs2, evs1 ++ evs2)
  | (Rejected e, cs1, evs1) => (Rejected e, cs1, evs1)
  end.

Definition throw {A : Type} (e : Error) : M A := fun cs => (Rejected e, cs, []).

Definition emit (e : Event) : M unit := fun cs => (Fulfilled tt, cs, [e]).

(** [try { body } catch (error) { handler }], and [promise.catch(handler)]. *)
Definition try_catch {A : Type} (body : M A) (handler : Error -> M A) : M A :=
  fun cs =>
    match body cs with
    | (Fulfilled a, cs1, evs1) => (Fulfilled a, cs1, evs1)
    | (Rejected e, cs1, evs1) =>
        let '(o, cs2, evs2) := handler e cs1 in (o, cs2, evs1 ++ evs2)
    end.

(** A promise observed without propagating its rejection. *)
Definition settle {A : Type} (m : M A) : M (Outcome A) :=
  fun cs => let '(o, cs1, evs1) := m cs in (Fulfilled o, cs1, evs1).

(** [Promise.all]: every promise of the list runs; the result is the list of
    values, or the first rejection. *)
Fixpoint promise_all {A : Type} (ms : list (M A)) : M (list A) :=
  match ms with
  | [] => mret []
  | m :: rest =>
      o ← settle m;
      os ← settle (promise_all rest);
      match o, os with
      | Fulfilled a, Fulfilled l => mret (a :: l)
      | Rejected e, _ => throw e
      | Fulfilled _, Rejected e => throw e
      end
  end.

Definition outcome {A : Type} (r : Outcome A * CacheStorage * list Event) : Outcome A := r.1.1.
Definition storage_after {A : Type} (r : Outcome A * CacheStorage * list Event) : CacheStorage := r.1.2.
Definition events {A : Type} (r : Outcome A * CacheStorage * list Event) : list Event := r.2.

Definition outcome_value {A : Type} (r : Outcome A * CacheStorage * list Event) : option A :=
  match r.1.1 with Fulfilled a => Some a | Rejected _ => None end.

(** ** JavaScript values carried by messages *)

#[warnings="-register-all"] Inductive JsValue : Type :=
  | JsUndefined
  | JsNull
  | JsBool (b : bool)
  | JsNumber (n : Z)
  | JsNaN
  | JsString (s : string)
  | JsObject (fields : list (string * JsValue)).

(** The values an [if] or [&&] takes as true. *)
Definition truthy (v : JsValue) : bool :=
  match v with
  | JsUndefined | JsNull | JsNaN => false
  | JsBool b => b
  | JsNumber n => negb (n =? 0)%Z
  | JsString s => negb (String.eqb s "")
  | JsObject _ => true
  end.

Fixpoint field (k : string) (fields : list (string * JsValue)) : JsValue :=
  match fields with
  | [] => JsUndefined
  | (k', v) :: rest => if String.eqb k' k then v else field k rest
  end.

(** [v.type] for a value [v] that is neither [null] nor [undefined]: a
    primitive has no property of that name. *)
Definition get_type (v : JsValue) : JsValue :=
  match v with
  | JsObject fields => field "type" fields
  | _ => JsUndefined
  end.

(** [v === 'literal'] *)
Definition strict_eq_string (v : JsValue) (literal : string) : bool :=
  match v with
  | JsString s => String.eqb s literal
  | _ => false
  end.

(** A value without a [type] field of its own: an object that has no such
    key, and every value that is not an object. *)
Definition lacks_type (v : JsValue) : Prop :=
  match v with
  | JsObject fields => "type" ∉ fields.*1
  | _ => True
  end.

(** A message event: its data and the ports transferred with it. *)
Record MessageEvent : Type := mkMessageEvent { data : JsValue; ports : list nat }.

(** ** The offline page (sw.js, lines 276-343) *)

Definition dq : string := String (ascii_of_nat 34) EmptyString.

Definition createOfflinePage : string :=
  "
    <!DOCTYPE html>
    <html lang="
  +:+ dq +:+ "en"
  +:+ dq +:+ ">
    <head>
        <meta charset="
  +:+ dq +:+ "UTF-8"
  +:+ dq +:+ ">
        <meta name="
  +:+ dq +:+ "viewport"
  +:+ dq +:+ " content="
  +:+ dq +:+ "width=device-width, initial-scale=1.0"
  +:+ dq +:+ ">
        <title>Offline - Spiritual Count</title>
        <style>
            body {
                font-family: -apple-system, BlinkMacSystemFont, 'Segoe UI', Roboto, sans-serif;
                margin: 0;
                padding: 20px;
                background: linear-gradient(135deg, #667eea 0%, #764ba2 100%);
                color: white;
                min-height: 100vh;
                display: flex;
                align-items: center;
                justify-content: center;
                text-align: center;
            }
            .container {
                max-width: 400px;
                background: rgba(255, 255, 255, 0.1);
                padding: 2rem;
                border-radius: 1rem;
                backdrop-filter: blur(10px);
            }
            h1 {
                margin-bottom: 1rem;
                font-size: 2rem;
            }
            p {
                margin-bottom: 1.5rem;
                line-height: 1.6;
            }
            button {
                background: rgba(255, 255, 255, 0.2);
                border: 2px solid white;
                color: white;
                padding: 0.75rem 1.5rem;
                border-radius: 0.5rem;
                font-weight: 600;
                cursor: pointer;
                transition: all 0.3s ease;
            }
            button:hover {
                background: rgba(255, 255, 255, 0.3);
            }
        </style>
    </head>
    <body>
        <div class="
  +:+ dq +:+ "container"
  +:+ dq +:+ ">
            <h1>ðŸ“± Spiritual Count</h1>
            <p>You're currently offline, but don't worry! Once you're back online, you can access all features of Spiritual Count.</p>
            <p>Your dhikr counts and settings are safely stored on your device.</p>
            <button onclick="
  +:+ dq +:+ "window.location.reload()"
  +:+ dq +:+ ">Try Again</button>
        </div>
        <script>
            // Auto-reload when back online
            window.addEventListener('online', () => {
                window.location.reload();
            });
        </script>
    </body>
    </html>
  ".

(** [new Response(body, { status, statusText, headers })]: a text body
    without a content type in [headers] is given the default one. *)
Definition new_Response (body : string) (status : Z) (statusText : string)
    (headers : list (string * string)) : Response :=
  mkResponse status statusText
    (match headers with
     | [] => [("content-type", "text/plain;charset=UTF-8")]
     | _ => headers
     end) body.

(** ** The worker *)

Section Worker.

Context (h : Host).

(** A URL string given to [fetch], [cache.put] or [caches.match] stands
    for a GET request to that path on the worker's own origin. *)
Definition request_of_path (path : string) : Request :=
  mkRequest "GET" (mkURL (self_origin h) path "").

(** *** Host operations as promises *)

Definition fetch (request : Request) : M Response :=
  fun cs =>
    match network h request with
    | Some r => (Fulfilled r, cs, [EvFetch request])
    | None => (Rejected (TypeError "Failed to fetch"), cs, [EvFetch request])
    end.

(** What [caches.match(request)] finds: every cache is searched, and only
    GET requests match. *)
Definition cached_for (request : Request) (cs : CacheStorage) : option Response :=
  if String.eqb (method request) "GET"
  then CS.match_ (href (url request)) cs else None.

Definition caches_match (request : Request) : M (option Response) :=
  fun cs => (Fulfilled (cached_for request cs), cs, []).

(** [caches.open(name)]: the handle of a cache is its name. *)
Definition caches_open (name : string) : M string :=
  fun cs => (Fulfilled name, CS.open name cs, [EvCacheOpen name]).

Definition caches_keys : M (list string) :=
  fun cs => (Fulfilled (CS.keys cs), cs, []).

Definition caches_has (name : string) : M bool :=
  fun cs => (Fulfilled (CS.has name cs), cs, []).

Definition caches_delete (name : string) : M bool :=
  fun cs => (Fulfilled (CS.has name cs), CS.delete name cs, [EvCacheDelete name]).

(** [cache.put(request, response)]: rejects for a request that is not a
    GET and when the storage layer refuses the write. *)
Definition cache_put (cache : string) (request : Request) (response : Response) : M unit :=
  fun cs =>
    let key := href (url request) in
    if negb (String.eqb (method request) "GET") then
      (Rejected (TypeError "Request method is unsupported"), cs, [EvCachePut cache key])
    else if storage_accepts h key response then
      (Fulfilled tt, CS.put cache key response cs, [EvCachePut cache key])
    else (Rejected QuotaExceededError, cs, [EvCachePut cache key]).

(** The responses of [cache.addAll]: every fetch must have answered with
    an ok status. *)
Fixpoint addAll_responses (rs : list (Request * Outcome Response))
    : option (list (Request * Response)) :=
  match rs with
  | [] => Some []
  | (q, Fulfilled r) :: rest =>
      if ok r then
        match addAll_responses rest with
        | Some l => Some ((q, r) :: l)
        | None => None
        end
      else None
  | (_, Rejected _) :: _ => None
  end.

(** [cache.addAll(paths)]: fetches every path; when one fetch fails or
    answers with a status that is not ok, or the storage layer refuses one
    entry, the promise rejects and nothing is stored; otherwise every
    response is stored. *)
Definition cache_addAll (cache : string) (paths : list string) : M unit :=
  rs ← promise_all
         (map (fun p => o ← settle (fetch (request_of_path p));
                        mret (request_of_path p, o)) paths);
  match addAll_responses rs with
  | None => throw (TypeError "Request failed")
  | Some l =>
      if forallb (fun qr => storage_accepts h (href (url qr.1)) qr.2) l then
        promise_all (map (fun qr => cache_put cache qr.1 qr.2) l);; mret tt
      else throw QuotaExceededError
  end.

Definition skipWaiting : M unit := emit EvSkipWaiting.

Definition clients_claim : M unit := emit EvClientsClaim.

(** [event.ports[0].postMessage(m)]: without a transferred port,
    [event.ports[0]] is [undefined] and the call throws. *)
Definition postMessage (event : MessageEvent) (m : Message) : M unit :=
  match ports event with
  | p :: _ => emit (EvPostMessage p m)
  | [] => throw (TypeError "Cannot read properties of undefined")
  end.

(** *** Install (sw.js, lines 32-72) *)

Definition install : M unit :=
  try_catch
    (cache ← caches_open CACHE_NAME;
     cache_addAll cache CORE_ASSETS;;
     cache ← caches_open CACHE_NAME;
     promise_all
       (map (fun asset =>
               try_catch
                 (response ← fetch (request_of_path asset);
                  if ok response
                  then cache_put cache (request_of_path asset) response
                  else mret tt)
                 (fun _ => mret tt))
            OPTIONAL_ASSETS);;
     skipWaiting)
    (fun error => mret tt).

(** *** Activate (sw.js, lines 78-105) *)

(** The callback of [cacheNames.map]: a cache is deleted unless it is the
    current one, for which the callback returns [undefined]. *)
Definition evict (cacheName : string) : M (option bool) :=
  if negb (String.eqb cacheName CACHE_NAME)
  then deleted ← caches_delete cacheName; mret (Some deleted)
  else mret None.

Definition activate : M unit :=
  try_catch
    (cacheNames ← caches_keys;
     promise_all (map evict cacheNames);;
     clients_claim)
    (fun error => mret tt).

(** *** The strategy handlers (sw.js, lines 157-271) *)

Definition handleStaticAsset (request : Request) : M Response :=
  try_catch
    (cachedResponse ← caches_match request;
     match cachedResponse with
     | Some cached => mret cached
     | None =>
         networkResponse ← fetch request;
         (if ok networkResponse then
            let responseToCache := clone networkResponse in
            cache ← caches_open CACHE_NAME;
            cache_put cache request responseToCache
          else mret tt);;
         mret networkResponse
     end)
    (fun error =>
       cachedResponse ← caches_match request;
       match cachedResponse with
       | Some cached => mret cached
       | None =>
           mret (new_Response "Asset not available offline"
                   503 "Service Unavailable" [])
       end).

Definition handleHTMLPage (request : Request) : M Response :=
  try_catch
    (networkResponse ← fetch request;
     if ok networkResponse then
       let responseToCache := clone networkResponse in
       cache ← caches_open CACHE_NAME;
       cache_put cache request responseToCache;;
       mret networkResponse
     else throw (JsError "Network response not ok"))
    (fun error =>
       cachedResponse ← caches_match request;
       match cachedResponse with
       | Some cached => mret cached
       | None =>
           indexFallback ← caches_match (request_of_path "/index.html");
           match indexFallback with
           | Some index => mret index
           | None =>
               mret (new_Response createOfflinePage 200 ""
                       [("Content-Type", "text/html")])
           end
       end).

Definition handleNetworkFirst (request : Request) : M Response :=
  try_catch
    (networkResponse ← fetch request;
     (if ok networkResponse && String.eqb (method request) "GET" then
        let responseToCache := clone networkResponse in
        cache ← caches_open CACHE_NAME;
        cache_put cache request responseToCache
      else mret tt);;
     mret networkResponse)
    (fun error =>
       cachedResponse ← caches_match request;
       match cachedResponse with
       | Some cached => mret cached
       | None =>
           mret (new_Response "Request failed and no cached version available"
                   503 "Service Unavailable" [])
       end).

(** *** The fetch listener (sw.js, lines 111-136) *)

Definition strategy (c : RoutingCategory) : Request -> M Response :=
  match c with
  | StaticAsset => handleStaticAsset
  | HTMLPage => handleHTMLPage
  | Other => handleNetworkFirst
  end.

(** Which branch of the listener answers a request; [None] when the
    listener returns without calling [event.respondWith]. *)
Definition route (request : Request) : option RoutingCategory :=
  if negb (String.eqb (method request) "GET") then None
  else if negb (String.eqb (origin (url request)) (self_origin h)) then None
  else Some (classify (pathname (url request))).

Definition onFetch (request : Request) : option (M Response) :=
  match route request with
  | None => None
  | Some c => Some (strategy c request)
  end.

(** *** The message listener (sw.js, lines 348-381) *)

Definition onMessage (event : MessageEvent) : M unit :=
  if truthy (data event) && truthy (get_type (data event)) then
    let type := get_type (data event) in
    if strict_eq_string type "GET_VERSION" then
      postMessage event (MsgVersion CACHE_VERSION)
    else if strict_eq_string type "SKIP_WAITING" then
      skipWaiting;;
      postMessage event MsgSkippedWaiting
    else if strict_eq_string type "CACHE_STATUS" then
      hasCache ← caches_has CACHE_NAME;
      postMessage event (MsgCacheStatus hasCache CACHE_NAME)
    else mret tt
  else mret tt.

(** The replies a run posted, in order. *)
Definition replies (evs : list Event) : list Message :=
  omap (fun e => match e with EvPostMessage _ m => Some m | _ => None end) evs.

End Worker.

(** ** The host's lifecycle of a worker *)

Inductive WorkerState : Type := Installed | Redundant.

(** The host runs the install listener and waits for the promise given to
    [event.waitUntil]: when it fulfils the worker is installed and waits to
    be activated, when it rejects the worker is discarded. *)
Definition install_phase (h : Host) (cs : CacheStorage)
    : WorkerState * CacheStorage * list Event :=
  let '(o, cs', evs) := install h cs in
  (match o with Fulfilled _ => Installed | Rejected _ => Redundant end, cs', evs).

(** A registration: the worker that controls the pages and the one that
    waits, each named by its version. *)
Record Registration : Type := mkRegistration {
  active : option string;
  waiting : option string
}.

(** The registration after the install phase of a new worker: a discarded
    worker leaves it as it was; an installed worker is activated at once
    when no worker is active or when it called [skipWaiting], and waits
    otherwise. *)
Definition after_install (reg : Registration) (version : string)
    (st : WorkerState) (evs : list Event) : Registration :=
  match st with
  | Redundant => reg
  | Installed =>
      match active reg with
      | None => mkRegistration (Some version) None
      | Some _ =>
          if existsb is_skipWaiting evs
          then mkRegistration (Some version) None
          else mkRegistration (active reg) (Some version)
      end
  end.

(** ** Example hosts and storages *)

Definition example_origin : string := "https://count.example".

Definition ok_response (text : string) : Response := mkResponse 200 "OK" [] text.

Definition not_found : Response := mkResponse 404 "Not Found" [] "".

(** Every path is served and every write is accepted. *)
Definition online_host : Host :=
  mkHost example_origin (fun q => Some (ok_response (pathname (url q)))) (fun _ _ => true).

(** No request reaches the network. *)
Definition offline_host : Host :=
  mkHost example_origin (fun _ => None) (fun _ _ => true).

(** Every path answers 404. *)
Definition missing_host : Host :=
  mkHost example_origin (fun _ => Some not_found) (fun _ _ => true).

(** The style sheet, a core asset, answers 404; every other path is served. *)
Definition style_missing_host : Host :=
  mkHost example_origin
    (fun q => if String.eqb (pathname (url q)) "/style.css"
              then Some not_found
              else Some (ok_response (pathname (url q))))
    (fun _ _ => true).

(** A host whose network fails where that of [h] does. *)
Definition without_network (h : Host) : Host :=
  mkHost (self_origin h) (fun _ => None) (storage_accepts h).

Definition get (path : string) : Request := mkRequest "GET" (mkURL example_origin path "").

(** The current cache holding the style sheet, after a stale one. *)
Definition example_storage : CacheStorage :=
  [ ("spiritual-count-v0", {[ "https://count.example/old.css" := ok_response "old" ]});
    (CACHE_NAME, {[ "https://count.example/style.css" := ok_response "body{}" ]});
    ("fonts", ∅) ].

(** The current cache holding the root path alone. *)
Definition root_path_storage : CacheStorage :=
  [ (CACHE_NAME, {[ "https://count.example/" := ok_response "<html>home</html>" ]}) ].

(** Only a stale cache: the current one was never created, or was cleared. *)
Definition stale_storage : CacheStorage := [ ("spiritual-count-v0", ∅) ].

Definition version_request : MessageEvent :=
  mkMessageEvent (JsObject [("type", JsString "GET_VERSION")]) [0%nat].

Definition bogus_request : MessageEvent :=
  mkMessageEvent (JsObject [("type", JsString "bogus")]) [0%nat].

(** ** The fallback chain of an HTML page, as the specification words it *)

(** (a) the cached entry of the request itself, (b) the cached entry of the
    root document, (c) the synthesized offline document. *)
Definition html_fallback (h : Host) (request : Request) (cs : CacheStorage)
    : Response :=
  match cached_for request cs with
  | Some cached => cached
  | None =>
      match cached_for (request_of_path h "/index.html") cs with
      | Some index => index
      | None => new_Response createOfflinePage 200 "" [("Content-Type", "text/html")]
      end
  end.

(** ** What an install run fetches and writes *)

(** How the promise of [fetch(request)] settles. *)
Definition fetch_outcome (h : Host) (request : Request) : Outcome Response :=
  match network h request with
  | Some r => Fulfilled r
  | None => Rejected (TypeError "Failed to fetch")
  end.

(** The core requests with their responses, when every core asset answered
    with an ok status. *)
Definition core_responses (h : Host) : option (list (Request * Response)) :=
  addAll_responses
    (map (fun p => (request_of_path h p, fetch_outcome h (request_of_path h p)))
       CORE_ASSETS).

Definition storage_accepts_all (h : Host) (l : list (Request * Response)) : bool :=
  forallb (fun qr => storage_accepts h (href (url qr.1)) qr.2) l.

(** The optional asset that an install stores: served with an ok status and
    accepted by the storage layer. *)
Definition optional_entry (h : Host) (p : string) : option (Request * Response) :=
  match network h (request_of_path h p) with
  | Some r =>
      if ok r && storage_accepts h (href (url (request_of_path h p))) r
      then Some (request_of_path h p, r) else None
  | None => None
  end.

(** The entries an install writes into the current cache, in order. *)
Definition installed_entries (h : Host) : list (Request * Response) :=
  match core_responses h with
  | Some l =>
      if storage_accepts_all h l then l ++ omap (optional_entry h) OPTIONAL_ASSETS
      else []
  | None => []
  end.

(** Writing a list of entries into the current cache, one [cache.put] after
    the other. *)
Definition put_all (l : list (Request * Response)) (cs : CacheStorage) : CacheStorage :=
  foldl (fun acc qr => CS.put CACHE_NAME (href (url qr.1)) qr.2 acc) cs l.

(** The events of the optional part of an install, for one asset: the fetch,
    and the write that follows an ok response. *)
Definition optional_events (h : Host) (p : string) : list Event :=
  EvFetch (request_of_path h p) ::
  match network h (request_of_path h p) with
  | Some r =>
      if ok r then [EvCachePut CACHE_NAME (href (url (request_of_path h p)))]
      else []
  | None => []
  end.

(** The events of an install run. *)
Definition install_events (h : Host) : list Event :=
  EvCacheOpen CACHE_NAME ::
  map (fun p => EvFetch (request_of_path h p)) CORE_ASSETS ++
  match core_responses h with
  | Some l =>
      if storage_accepts_all h l then
        map (fun qr => EvCachePut CACHE_NAME (href (url qr.1))) l ++
        EvCacheOpen CACHE_NAME ::
        flat_map (optional_events h) OPTIONAL_ASSETS ++ [EvSkipWaiting]
      else []
  | None => []
  end.

(** The content of the cache of a name; no entry when the cache does not
    exist. *)
Definition cache_content (name : string) (cs : CacheStorage) : Cache :=
  default ∅ (CS.lookup name cs).

(** Writing a list of entries into one cache, one insertion after the other. *)
Definition insert_all (l : list (Request * Response)) (m : Cache) : Cache :=
  foldl (fun acc qr => <[href (url qr.1) := qr.2]> acc) m l.

(** The first cache of a name, changed by [f]; the storage as it is when no
    cache has the name. *)
Fixpoint alter_cache (name : string) (f : Cache -> Cache) (cs : CacheStorage)
    : CacheStorage :=
  match cs with
  | [] => []
  | (n, c) :: rest =>
      if String.eqb n name then (n, f c) :: rest
      else (n, c) :: alter_cache name f rest
  end.

(** A core asset that keeps an install from storing anything: not served,
    served with a status that is not ok, or refused by the storage layer. *)
Definition core_asset_fails (h : Host) (p : string) : Prop :=
  match network h (request_of_path h p) with
  | None => True
  | Some r =>
      ok r = false \/
      storage_accepts h (href (url (request_of_path h p))) r = false
  end.

(** A core asset that an install can store. *)
Definition core_asset_served (h : Host) (p : string) : Prop :=
  exists r, network h (request_of_path h p) = Some r /\ ok r = true /\
            storage_accepts h (href (url (request_of_path h p))) r = true.

(** The optional assets are served, the core assets are, except the style
    sheet is refused by the storage layer. *)
Definition quota_host : Host :=
  mkHost example_origin (fun q => Some (ok_response (pathname (url q))))
    (fun key _ => negb (String.eqb key "https://count.example/style.css")).

(** The core assets are served, the optional ones are not found. *)
Definition core_only_host : Host :=
  mkHost example_origin
    (fun q => if existsb (String.eqb (pathname (url q))) OPTIONAL_ASSETS
              then Some not_found
              else Some (ok_response (pathname (url q))))
    (fun _ _ => true).

(** The answers of the cache-first and of the generic handler when neither
    the network nor a cache has a response (sw.js, lines 190-193, 266-269). *)
Definition asset_unavailable : Response :=
  new_Response "Asset not available offline" 503 "Service Unavailable" [].

Definition request_unavailable : Response :=
  new_Response "Request failed and no cached version available"
    503 "Service Unavailable" [].

(** The home page as a stale cache holds it, before the current cache. *)
Definition shadowed_storage : CacheStorage :=
  [ ("spiritual-count-v0", {[ "https://count.example/" := ok_response "<html>old</html>" ]});
    (CACHE_NAME, ∅) ].

(** Every path is served, no write is accepted. *)
Definition full_host : Host :=
  mkHost example_origin (fun q => Some (ok_response (pathname (url q)))) (fun _ _ => false).

Definition skip_request : MessageEvent :=
  mkMessageEvent (JsObject [("type", JsString "SKIP_WAITING")]) [].

Definition status_request : MessageEvent :=
  mkMessageEvent (JsObject [("type", JsString "CACHE_STATUS")]) [3%nat].

(** * Properties *)

(** ** Facts about suffixes *)

Section Suffix.

Lemma substring_all (s : string) : String.substring 0 (String.length s) s = s.
Proof. induction s as [|c s IH]; simpl; [reflexivity | now rewrite IH]. Qed.

Lemma length_append (a b : string) :
  String.length (a +:+ b) = String.length a + String.length b.
Proof. induction a as [|c a IH]; simpl; [reflexivity | now rewrite IH]. Qed.

Lemma endsWith_is_suffix (s suf : string) :
  endsWith s suf = true -> is_suffix suf s.
Proof.
  unfold endsWith, is_suffix.
  induction s as [|c s IH]; intros H.
  - destruct suf as [|d suf]; simpl in H; [now exists "" | discriminate].
  - destruct (String.length (String c s) <? String.length suf)%nat eqn:Hlt;
      [discriminate |].
    apply Nat.ltb_ge in Hlt. simpl in Hlt.
    destruct (decide (String.length suf = S (String.length s))) as [He | Hne].
    + rewrite He in H. simpl String.length in H. rewrite Nat.sub_diag in H.
      change (S (String.length s)) with (String.length (String c s)) in H.
      rewrite substring_all in H. apply String.eqb_eq in H.
      exists "". now rewrite H.
    + assert (Hle : String.length suf <= String.length s) by lia.
      simpl String.length in H.
      replace (S (String.length s) - String.length suf)
        with (S (String.length s - String.length suf)) in H by lia.
      simpl String.substring in H.
      destruct IH as [pre Hpre].
      * apply Nat.ltb_ge in Hle. now rewrite Hle.
      * exists (String c pre). simpl. now rewrite Hpre.
Qed.

Lemma substring_append_r (pre suf : string) :
  String.substring (String.length pre) (String.length suf) (pre +:+ suf) = suf.
Proof.
  induction pre as [|c pre IH]; simpl; [apply substring_all | exact IH].
Qed.

Lemma is_suffix_endsWith (s suf : string) :
  is_suffix suf s -> endsWith s suf = true.
Proof.
  intros [pre ->]. unfold endsWith. rewrite length_append.
  destruct (String.length pre + String.length suf <? String.length suf)%nat
    eqn:Hlt; [apply Nat.ltb_lt in Hlt; lia |].
  replace (String.length pre + String.length suf - String.length suf)
    with (String.length pre) by lia.
  rewrite substring_append_r. apply String.eqb_refl.
Qed.

Lemma endsWith_iff (s suf : string) :
  endsWith s suf = true <-> is_suffix suf s.
Proof. split; [apply endsWith_is_suffix | apply is_suffix_endsWith]. Qed.

(** Two suffixes of one string are comparable. *)
Lemma is_suffix_comparable (s a b : string) :
  is_suffix a s -> is_suffix b s -> is_suffix a b \/ is_suffix b a.
Proof.
  intros [p Hp] [q Hq]. subst s. revert q Hq.
  induction p as [|c p IH]; intros q Hq.
  - right. exists q. exact Hq.
  - destruct q as [|d q].
    + left. exists (String c p). symmetry. exact Hq.
    + simpl in Hq. injection Hq as _ Hq. exact (IH q Hq).
Qed.

Lemma endsWith_comparable (s a b : string) :
  endsWith s a = true -> endsWith s b = true ->
  endsWith b a || endsWith a b = true.
Proof.
  intros Ha Hb. apply endsWith_iff in Ha, Hb.
  apply orb_true_iff.
  destruct (is_suffix_comparable s a b Ha Hb) as [H | H];
    [left | right]; now apply endsWith_iff.
Qed.

End Suffix.

(** ** The classifier *)

Section Classifier.

Lemma existsb_endsWith (p : string) (exts : list string) :
  existsb (fun ext => endsWith p ext) exts = true <->
  exists ext, ext ∈ exts /\ is_suffix ext p.
Proof.
  rewrite existsb_exists. split; intros (ext & Hin & Hs); exists ext.
  - split; [now apply list_elem_of_In | now apply endsWith_iff].
  - split; [now apply list_elem_of_In | now apply endsWith_iff].
Qed.

Lemma staticExtensions_names :
  staticExtensions = map (fun e => "." +:+ e) static_extension_names.
Proof. reflexivity. Qed.

Lemma isStaticAsset_spec (p : string) :
  isStaticAsset p = true <->
  exists e, e ∈ static_extension_names /\ is_suffix ("." +:+ e) p.
Proof.
  unfold isStaticAsset. rewrite existsb_endsWith, staticExtensions_names.
  split.
  - intros (ext & Hin & Hs). apply list_elem_of_fmap in Hin as (e & -> & He).
    now exists e.
  - intros (e & He & Hs). exists ("." +:+ e). split; [| exact Hs].
    apply list_elem_of_fmap. now exists e.
Qed.

Lemma isHTMLPage_spec (p : string) :
  isHTMLPage p = true <-> is_suffix ".html" p \/ p = "/".
Proof.
  unfold isHTMLPage. rewrite orb_true_iff, endsWith_iff, String.eqb_eq.
  reflexivity.
Qed.

(** No static extension is a suffix of [".html"], nor the converse. *)
Lemma html_incomparable :
  forallb (fun ext => negb (endsWith ext ".html" || endsWith ".html" ext))
    staticExtensions = true.
Proof. vm_compute. reflexivity. Qed.

Lemma isStaticAsset_isHTMLPage_disjoint (p : string) :
  isStaticAsset p && isHTMLPage p = false.
Proof.
  destruct (isStaticAsset p) eqn:Hs; [| reflexivity].
  destruct (isHTMLPage p) eqn:Hh; [| reflexivity].
  exfalso. unfold isHTMLPage in Hh. apply orb_true_iff in Hh as [Hh | Hh].
  - unfold isStaticAsset in Hs. apply existsb_exists in Hs as (ext & Hin & He).
    pose proof (endsWith_comparable p ".html" ext Hh He) as Hc.
    pose proof html_incomparable as Hall.
    rewrite forallb_forall in Hall. specialize (Hall ext Hin).
    rewrite Hc in Hall. discriminate.
  - apply String.eqb_eq in Hh. subst p. vm_compute in Hs. discriminate.
Qed.

Lemma classify_StaticAsset (p : string) :
  classify p = StaticAsset <-> isStaticAsset p = true.
Proof.
  unfold classify. destruct (isStaticAsset p), (isHTMLPage p);
    split; intros H; try reflexivity; discriminate.
Qed.

Lemma classify_HTMLPage (p : string) :
  classify p = HTMLPage <-> isHTMLPage p = true.
Proof.
  pose proof (isStaticAsset_isHTMLPage_disjoint p) as Hd.
  unfold classify. destruct (isStaticAsset p), (isHTMLPage p);
    split; intros H; try reflexivity; discriminate.
Qed.

Lemma classify_Other (p : string) :
  classify p = Other <-> isStaticAsset p = false /\ isHTMLPage p = false.
Proof.
  unfold classify. destruct (isStaticAsset p), (isHTMLPage p);
    split; try intros [? ?]; try intros ?; try split;
    try reflexivity; discriminate.
Qed.

(** The text after the last dot decides the static assets: none of the
    listed names contains a dot. *)
Lemma extension_of_suffix (p e : string) :
  extension_of p = Some e -> is_suffix ("." +:+ e) p.
Proof.
  revert e. induction p as [|c p IH]; intros e H; [discriminate |].
  simpl in H. destruct (extension_of p) as [e' |] eqn:He.
  - inversion H; subst e'. destruct (IH e eq_refl) as [pre Hpre].
    exists (String c pre). rewrite Hpre. reflexivity.
  - destruct (Ascii.eqb c ".") eqn:Hc; [| discriminate].
    apply Ascii.eqb_eq in Hc. inversion H; subst. now exists "".
Qed.

Lemma suffix_extension_of (pre e : string) :
  extension_of e = None -> extension_of (pre +:+ "." +:+ e) = Some e.
Proof.
  intros He. induction pre as [|c pre IH].
  - change (extension_of (String "." e) = Some e).
    cbn [extension_of]. rewrite He. reflexivity.
  - change (extension_of (String c (pre +:+ "." +:+ e)) = Some e).
    cbn [extension_of]. rewrite IH. reflexivity.
Qed.

Lemma static_extension_names_dotless :
  forallb (fun e => match extension_of e with None => true | Some _ => false end)
    static_extension_names = true.
Proof. vm_compute. reflexivity. Qed.

Lemma isStaticAsset_extension_of (p : string) :
  isStaticAsset p = true <->
  exists e, e ∈ static_extension_names /\ extension_of p = Some e.
Proof.
  rewrite isStaticAsset_spec. split; intros (e & He & H); exists e; split;
    try exact He.
  - destruct H as [pre ->]. apply suffix_extension_of.
    pose proof static_extension_names_dotless as Hall.
    rewrite forallb_forall in Hall. apply list_elem_of_In in He.
    specialize (Hall e He). now destruct (extension_of e).
  - now apply extension_of_suffix.
Qed.

End Classifier.

(** C4, as the code has it. The classifier is a function of the path alone:
    a path that ends in a dot followed by one of css, js, json, ico, png,
    jpg, jpeg, svg, woff, woff2 (compared case-sensitively), that is, whose
    text after the last dot is one of them, is a StaticAsset; a path that
    ends in ".html" or is "/" is an HTMLPage; every other path is Other. The
    four scenarios of the specification evaluate as it says. *)
Theorem classify_correct (p : string) :
  (classify p = StaticAsset <->
     exists e, e ∈ static_extension_names /\ is_suffix ("." +:+ e) p) /\
  (classify p = StaticAsset <->
     exists e, e ∈ static_extension_names /\ extension_of p = Some e) /\
  (classify p = HTMLPage <-> is_suffix ".html" p \/ p = "/") /\
  (classify p = Other <->
     ~ (exists e, e ∈ static_extension_names /\ is_suffix ("." +:+ e) p) /\
     ~ (is_suffix ".html" p \/ p = "/")) /\
  classify "/style.css" = StaticAsset /\
  classify "/about.html" = HTMLPage /\
  classify "/" = HTMLPage /\
  classify "/api/data" = Other /\
  classify "/STYLE.CSS" = Other.
Proof.
  repeat split; try reflexivity.
  - intros H. now apply isStaticAsset_spec, classify_StaticAsset.
  - intros H. now apply classify_StaticAsset, isStaticAsset_spec.
  - intros H. now apply isStaticAsset_extension_of, classify_StaticAsset.
  - intros H. now apply classify_StaticAsset, isStaticAsset_extension_of.
  - intros H. now apply isHTMLPage_spec, classify_HTMLPage.
  - intros H. now apply classify_HTMLPage, isHTMLPage_spec.
  - intros Hs. apply isStaticAsset_spec in Hs.
    apply classify_Other in H as [H _]. congruence.
  - intros Hh. apply isHTMLPage_spec in Hh.
    apply classify_Other in H as [_ H]. congruence.
  - intros [Hs Hh]. apply classify_Other. split.
    + destruct (isStaticAsset p) eqn:E; [| reflexivity].
      exfalso. apply Hs. now apply isStaticAsset_spec.
    + destruct (isHTMLPage p) eqn:E; [| reflexivity].
      exfalso. apply Hh. now apply isHTMLPage_spec.
Qed.

(** C4, as the specification states it, fails: "/data/json" ends in "json"
    and is Other, because the extensions are matched with their dot. *)
Lemma classify_suffix_without_dot :
  "json" ∈ static_extension_names /\
  is_suffix "json" "/data/json" /\
  classify "/data/json" = Other /\
  classify "/data/json" <> StaticAsset.
Proof.
  split; [repeat constructor |]. split; [now exists "/data/" |].
  split; [reflexivity | discriminate].
Qed.



(** ** CacheStorage operations *)

Section Storage.

Implicit Types (cs : CacheStorage) (name key : string).

Lemma delete_open name cs : CS.delete name (CS.open name cs) = CS.delete name cs.
Proof.
  unfold CS.open, CS.delete. destruct (CS.has name cs); [reflexivity |].
  rewrite filter_app, filter_cons_False, filter_nil, app_nil_r; [reflexivity |].
  simpl. intros Hne. now apply Hne.
Qed.

Lemma delete_put name key (r : Response) cs :
  CS.delete name (CS.put name key r cs) = CS.delete name cs.
Proof.
  unfold CS.delete. induction cs as [|[n c] cs IH]; [reflexivity |].
  simpl. destruct (String.eqb n name) eqn:E.
  - apply String.eqb_eq in E. subst n.
    rewrite !filter_cons_False; [reflexivity | |]; simpl; intros Hne; now apply Hne.
  - apply String.eqb_neq in E.
    rewrite !filter_cons_True by (simpl; exact E). now rewrite IH.
Qed.

Lemma keys_put name key (r : Response) cs : CS.keys (CS.put name key r cs) = CS.keys cs.
Proof.
  unfold CS.keys. induction cs as [|[n c] cs IH]; [reflexivity |].
  cbn [CS.put]. destruct (String.eqb n name); rewrite !fmap_cons;
    [reflexivity | f_equal; exact IH].
Qed.

Lemma has_elem_of name cs : CS.has name cs = true <-> name ∈ CS.keys cs.
Proof.
  unfold CS.has, CS.keys. induction cs as [|[n c] cs IH]; simpl.
  - split; [discriminate | intros H; inversion H].
  - destruct (String.eqb n name) eqn:E.
    + apply String.eqb_eq in E. subst n. split; [intros _; left | reflexivity].
    + apply String.eqb_neq in E. rewrite IH. split.
      * intros H. now right.
      * intros H. inversion H; subst; [congruence | assumption].
Qed.

Lemma wf_open name cs : CS.wf cs -> CS.wf (CS.open name cs).
Proof.
  unfold CS.wf, CS.open. intros Hwf.
  destruct (CS.has name cs) eqn:E; [exact Hwf |].
  unfold CS.keys. rewrite fmap_app. simpl.
  apply NoDup_app. split; [exact Hwf |]. split; [| apply NoDup_singleton].
  intros x Hx Hx'. apply list_elem_of_singleton in Hx'. subst x.
  apply has_elem_of in Hx. congruence.
Qed.

Lemma wf_put name key (r : Response) cs : CS.wf cs -> CS.wf (CS.put name key r cs).
Proof. unfold CS.wf. now rewrite keys_put. Qed.

Lemma wf_delete name cs : CS.wf cs -> CS.wf (CS.delete name cs).
Proof.
  unfold CS.wf, CS.keys, CS.delete. induction cs as [|[n c] cs IH]; intros Hwf.
  - constructor.
  - simpl in Hwf. apply NoDup_cons in Hwf as [Hn Hwf].
    rewrite filter_cons. destruct (decide ((n, c).1 ≠ name)); [| now apply IH].
    simpl. apply NoDup_cons. split; [| now apply IH].
    intros Hin. apply Hn. apply list_elem_of_fmap in Hin as ([n' c'] & -> & Hin).
    apply list_elem_of_filter in Hin as [_ Hin].
    apply list_elem_of_fmap. now exists (n', c').
Qed.

End Storage.

(** ** The strategy handlers *)

Ltac run_handler :=
  unfold handleStaticAsset, handleHTMLPage, handleNetworkFirst, try_catch,
    mbind, M_bind, mret, M_ret, fetch, caches_match, caches_open, cache_put,
    throw, clone.

Section Handlers.

Context (h : Host).
Implicit Types (cs : CacheStorage) (request : Request) (r : Response).

(** A hit answers at once: nothing is fetched, nothing is stored. *)
Lemma handleStaticAsset_hit request cs cached :
  cached_for request cs = Some cached ->
  handleStaticAsset h request cs = (Fulfilled cached, cs, []).
Proof. intros Hhit. run_handler. rewrite Hhit. reflexivity. Qed.

(** A run that fetched is a run that found nothing in the caches. *)
Lemma handleStaticAsset_fetches request cs :
  existsb is_fetch (events (handleStaticAsset h request cs)) = true ->
  cached_for request cs = None.
Proof.
  destruct (cached_for request cs) as [cached |] eqn:E; [| reflexivity].
  rewrite (handleStaticAsset_hit _ _ _ E). discriminate.
Qed.

(** The runs of the three handlers, case by case: what the cache holds,
    what the network answers, whether the write is accepted. *)
Lemma handleStaticAsset_run request cs :
  handleStaticAsset h request cs =
    match cached_for request cs with
    | Some cached => (Fulfilled cached, cs, [])
    | None =>
        let unavailable :=
          new_Response "Asset not available offline" 503 "Service Unavailable" [] in
        match network h request with
        | None => (Fulfilled unavailable, cs, [EvFetch request])
        | Some r =>
            if ok r then
              let key := href (url request) in
              let evs := [EvFetch request; EvCacheOpen CACHE_NAME;
                          EvCachePut CACHE_NAME key] in
              if String.eqb (method request) "GET" && storage_accepts h key r
              then (Fulfilled r, CS.put CACHE_NAME key r (CS.open CACHE_NAME cs), evs)
              else (Fulfilled
                      (match cached_for request (CS.open CACHE_NAME cs) with
                       | Some cached => cached
                       | None => unavailable
                       end), CS.open CACHE_NAME cs, evs)
            else (Fulfilled r, cs, [EvFetch request])
        end
    end.
Proof.
  run_handler. destruct (cached_for request cs) eqn:Hc; [reflexivity |].
  destruct (network h request) as [r |]; simpl; [| now rewrite Hc].
  destruct (ok r); simpl; [| reflexivity].
  destruct (String.eqb (method request) "GET"); simpl.
  - destruct (storage_accepts h (href (url request)) r); simpl; [reflexivity |].
    now destruct (cached_for request (CS.open CACHE_NAME cs)).
  - now destruct (cached_for request (CS.open CACHE_NAME cs)).
Qed.

Lemma handleHTMLPage_run request cs :
  handleHTMLPage h request cs =
    match network h request with
    | None => (Fulfilled (html_fallback h request cs), cs, [EvFetch request])
    | Some r =>
        if ok r then
          let key := href (url request) in
          let evs := [EvFetch request; EvCacheOpen CACHE_NAME;
                      EvCachePut CACHE_NAME key] in
          if String.eqb (method request) "GET" && storage_accepts h key r
          then (Fulfilled r, CS.put CACHE_NAME key r (CS.open CACHE_NAME cs), evs)
          else (Fulfilled (html_fallback h request (CS.open CACHE_NAME cs)),
                CS.open CACHE_NAME cs, evs)
        else (Fulfilled (html_fallback h request cs), cs, [EvFetch request])
    end.
Proof.
  run_handler. destruct (network h request) as [r |]; simpl.
  - destruct (ok r); simpl.
    + destruct (String.eqb (method request) "GET"); simpl.
      * destruct (storage_accepts h (href (url request)) r); simpl;
          [reflexivity |].
        unfold html_fallback.
        destruct (cached_for request (CS.open CACHE_NAME cs)); simpl;
          [reflexivity |].
        now destruct (cached_for (request_of_path h "/index.html")
                        (CS.open CACHE_NAME cs)).
      * unfold html_fallback.
        destruct (cached_for request (CS.open CACHE_NAME cs)); simpl;
          [reflexivity |].
        now destruct (cached_for (request_of_path h "/index.html")
                        (CS.open CACHE_NAME cs)).
    + unfold html_fallback. destruct (cached_for request cs); simpl;
        [reflexivity |].
      now destruct (cached_for (request_of_path h "/index.html") cs).
  - unfold html_fallback. destruct (cached_for request cs); simpl;
      [reflexivity |].
    now destruct (cached_for (request_of_path h "/index.html") cs).
Qed.

Lemma handleNetworkFirst_run request cs :
  handleNetworkFirst h request cs =
    let unavailable :=
      new_Response "Request failed and no cached version available"
        503 "Service Unavailable" [] in
    let fallback cs0 :=
      match cached_for request cs0 with
      | Some cached => cached
      | None => unavailable
      end in
    match network h request with
    | None => (Fulfilled (fallback cs), cs, [EvFetch request])
    | Some r =>
        if ok r && String.eqb (method request) "GET" then
          let key := href (url request) in
          let evs := [EvFetch request; EvCacheOpen CACHE_NAME;
                      EvCachePut CACHE_NAME key] in
          if storage_accepts h key r
          then (Fulfilled r, CS.put CACHE_NAME key r (CS.open CACHE_NAME cs), evs)
          else (Fulfilled (fallback (CS.open CACHE_NAME cs)),
                CS.open CACHE_NAME cs, evs)
        else (Fulfilled r, cs, [EvFetch request])
    end.
Proof.
  run_handler. destruct (network h request) as [r |]; simpl.
  - destruct (ok r); simpl; [| reflexivity].
    destruct (String.eqb (method request) "GET"); simpl; [| reflexivity].
    destruct (storage_accepts h (href (url request)) r); simpl; [reflexivity |].
    now destruct (cached_for request (CS.open CACHE_NAME cs)).
  - now destruct (cached_for request cs).
Qed.

(** The three handlers always answer. *)
Lemma strategy_answers (c : RoutingCategory) request cs :
  exists response, outcome (strategy h c request cs) = Fulfilled response.
Proof.
  destruct c; unfold strategy;
    [rewrite handleStaticAsset_run | rewrite handleHTMLPage_run
    | rewrite handleNetworkFirst_run]; unfold outcome; cbv zeta;
    repeat (match goal with
            | |- context [match ?x with _ => _ end] => destruct x
            | |- context [if ?x then _ else _] => destruct x
            end); simpl; eauto.
Qed.

(** What the HTML handler does when the network gave no ok response. *)
Lemma handleHTMLPage_no_ok request cs :
  (network h request = None \/
   exists r, network h request = Some r /\ ok r = false) ->
  handleHTMLPage h request cs =
    (Fulfilled (html_fallback h request cs), cs, [EvFetch request]).
Proof.
  intros [Hnet | (r & Hnet & Hok)]; rewrite handleHTMLPage_run, Hnet;
    [reflexivity |]. now rewrite Hok.
Qed.

(** The offline page refers to nothing outside itself. *)
Lemma createOfflinePage_self_contained :
  forallb (fun s => negb (includes createOfflinePage s))
    [ "http"; "src="; "href="; "url("; "@import"; "<link" ] = true.
Proof. vm_compute. reflexivity. Qed.

End Handlers.

(** C3. A static-asset request that has a cached entry is answered with that
    entry by the cache-first handler, without any network call and without a
    write; the handler contacts the network only when nothing is cached. *)
Theorem handleStaticAsset_cache_first
    (h : Host) (request : Request) (cs : CacheStorage) (cached : Response) :
  cached_for request cs = Some cached ->
  handleStaticAsset h request cs = (Fulfilled cached, cs, []) /\
  existsb is_fetch (events (handleStaticAsset h request cs)) = false /\
  (forall cs' : CacheStorage,
     existsb is_fetch (events (handleStaticAsset h request cs')) = true ->
     cached_for request cs' = None).
Proof.
  intros Hhit. rewrite (handleStaticAsset_hit h _ _ _ Hhit).
  split; [reflexivity |]. split; [reflexivity |].
  intros cs'. apply handleStaticAsset_fetches.
Qed.

Lemma handleStaticAsset_cache_first_witness :
  handleStaticAsset online_host (get "/style.css") example_storage
    = (Fulfilled (ok_response "body{}"), example_storage, []) /\
  existsb is_fetch
    (events (handleStaticAsset online_host (get "/style.css") example_storage))
    = false /\
  (forall cs' : CacheStorage,
     existsb is_fetch
       (events (handleStaticAsset online_host (get "/style.css") cs')) = true ->
     cached_for (get "/style.css") cs' = None).
Proof.
  apply (handleStaticAsset_cache_first online_host (get "/style.css")
           example_storage (ok_response "body{}")).
  vm_compute. reflexivity.
Defined.

(** C2. When the network attempt of an HTML-page request fails or answers
    with a status that is not ok, the handler answers, in this order of
    preference, with the cached entry of the request itself, else with the
    cached entry of the root document [/index.html], else with the
    synthesized offline page: status 200, content type text/html, a document
    that refers to no other resource. The promise is fulfilled in every
    case, and nothing is written. *)
Theorem handleHTMLPage_fallback_chain
    (h : Host) (request : Request) (cs : CacheStorage) :
  (network h request = None \/
   exists r, network h request = Some r /\ ok r = false) ->
  exists response : Response,
    handleHTMLPage h request cs = (Fulfilled response, cs, [EvFetch request]) /\
    match cached_for request cs with
    | Some cached => response = cached
    | None =>
        match cached_for (request_of_path h "/index.html") cs with
        | Some index => response = index
        | None =>
            status response = 200%Z /\
            headers response = [("Content-Type", "text/html")] /\
            body response = createOfflinePage /\
            forallb (fun s => negb (includes (body response) s))
              [ "http"; "src="; "href="; "url("; "@import"; "<link" ] = true
        end
    end.
Proof.
  intros Hnet. eexists. split; [apply (handleHTMLPage_no_ok h _ _ Hnet) |].
  unfold html_fallback.
  destruct (cached_for request cs); [reflexivity |].
  destruct (cached_for (request_of_path h "/index.html") cs); [reflexivity |].
  split; [reflexivity |]. split; [reflexivity |]. split; [reflexivity |].
  apply createOfflinePage_self_contained.
Qed.

Lemma handleHTMLPage_fallback_chain_witness :
  exists response : Response,
    handleHTMLPage offline_host (get "/about.html") stale_storage
      = (Fulfilled response, stale_storage, [EvFetch (get "/about.html")]) /\
    match cached_for (get "/about.html") stale_storage with
    | Some cached => response = cached
    | None =>
        match cached_for
                (request_of_path offline_host "/index.html") stale_storage with
        | Some index => response = index
        | None =>
            status response = 200%Z /\
            headers response = [("Content-Type", "text/html")] /\
            body response = createOfflinePage /\
            forallb (fun s => negb (includes (body response) s))
              [ "http"; "src="; "href="; "url("; "@import"; "<link" ] = true
        end
    end.
Proof.
  apply (handleHTMLPage_fallback_chain offline_host (get "/about.html")
           stale_storage).
  left. reflexivity.
Defined.

Section Frame.

Context (h : Host).
Implicit Types (cs : CacheStorage) (request : Request) (r : Response).

Lemma keys_open (name : string) cs :
  CS.keys (CS.open name cs) =
    if CS.has name cs then CS.keys cs else CS.keys cs ++ [name].
Proof.
  unfold CS.open, CS.keys. destruct (CS.has name cs); [reflexivity |].
  now rewrite fmap_app.
Qed.

(** With a response that is not ok, no handler opens or writes a cache. *)
Lemma strategy_not_ok (c : RoutingCategory) request cs r :
  network h request = Some r -> ok r = false ->
  storage_after (strategy h c request cs) = cs /\
  events (strategy h c request cs) =
    match c, cached_for request cs with
    | StaticAsset, Some _ => []
    | _, _ => [EvFetch request]
    end.
Proof.
  intros Hnet Hok. destruct c; unfold strategy.
  - rewrite handleStaticAsset_run. destruct (cached_for request cs);
      [now split |]. cbv zeta. rewrite Hnet, Hok. now split.
  - rewrite handleHTMLPage_run, Hnet, Hok.
    split; [reflexivity |]. now destruct (cached_for request cs).
  - rewrite handleNetworkFirst_run. cbv zeta. rewrite Hnet, Hok.
    split; [reflexivity |]. now destruct (cached_for request cs).
Qed.

(** A handler that changes the storage received an ok response. *)
Lemma strategy_persists_only_ok (c : RoutingCategory) request cs :
  storage_after (strategy h c request cs) <> cs ->
  exists r, network h request = Some r /\ ok r = true.
Proof.
  intros Hch. destruct (network h request) as [r |] eqn:Hnet.
  - exists r. split; [reflexivity |]. destruct (ok r) eqn:Hok; [reflexivity |].
    exfalso. apply Hch. now apply (strategy_not_ok c request cs r).
  - exfalso. apply Hch. destruct c; unfold strategy.
    + rewrite handleStaticAsset_run. destruct (cached_for request cs);
        [reflexivity |]. cbv zeta. now rewrite Hnet.
    + now rewrite handleHTMLPage_run, Hnet.
    + rewrite handleNetworkFirst_run. cbv zeta. now rewrite Hnet.
Qed.

(** The storages and events a handler can leave. *)
Lemma strategy_shape (c : RoutingCategory) request cs :
  let res := strategy h c request cs in
  (storage_after res = cs /\ (events res = [] \/ events res = [EvFetch request])) \/
  (exists r,
     (storage_after res = CS.open CACHE_NAME cs \/
      storage_after res =
        CS.put CACHE_NAME (href (url request)) r (CS.open CACHE_NAME cs)) /\
     events res = [EvFetch request; EvCacheOpen CACHE_NAME;
                   EvCachePut CACHE_NAME (href (url request))]).
Proof.
  destruct c; unfold strategy; cbv zeta.
  - rewrite handleStaticAsset_run. cbv zeta.
    destruct (cached_for request cs); [left; split; [reflexivity | now left] |].
    destruct (network h request) as [r |];
      [| left; split; [reflexivity | now right]].
    destruct (ok r); [| left; split; [reflexivity | now right]].
    right. exists r.
    destruct (String.eqb (method request) "GET" &&
              storage_accepts h (href (url request)) r);
      split; try reflexivity; [now right | now left].
  - rewrite handleHTMLPage_run. cbv zeta.
    destruct (network h request) as [r |];
      [| left; split; [reflexivity | now right]].
    destruct (ok r); [| left; split; [reflexivity | now right]].
    right. exists r.
    destruct (String.eqb (method request) "GET" &&
              storage_accepts h (href (url request)) r);
      split; try reflexivity; [now right | now left].
  - rewrite handleNetworkFirst_run. cbv zeta.
    destruct (network h request) as [r |];
      [| left; split; [reflexivity | now right]].
    destruct (ok r && String.eqb (method request) "GET");
      [| left; split; [reflexivity | now right]].
    right. exists r.
    destruct (storage_accepts h (href (url request)) r);
      split; try reflexivity; [now right | now left].
Qed.

End Frame.

(** C7. A network response whose status is not ok is returned as it is by
    the cache-first handler (which asks the network only on a miss) and by
    the generic network-first handler, and is not stored; the HTML handler
    treats it as a network failure and answers from its fallback chain; with
    such a response no handler opens or writes a cache, so only ok responses
    are persisted. *)
Theorem non_ok_response_not_persisted
    (h : Host) (request : Request) (cs : CacheStorage) (r : Response) :
  network h request = Some r ->
  ok r = false ->
  (cached_for request cs = None ->
   handleStaticAsset h request cs = (Fulfilled r, cs, [EvFetch request])) /\
  handleNetworkFirst h request cs = (Fulfilled r, cs, [EvFetch request]) /\
  handleHTMLPage h request cs = handleHTMLPage (without_network h) request cs /\
  handleHTMLPage h request cs
    = (Fulfilled (html_fallback h request cs), cs, [EvFetch request]) /\
  (forall c : RoutingCategory,
     storage_after (strategy h c request cs) = cs /\
     Forall (fun e => written_cache e = None) (events (strategy h c request cs))).
Proof.
  intros Hnet Hok. repeat split.
  - intros Hmiss. rewrite handleStaticAsset_run, Hmiss. cbv zeta.
    now rewrite Hnet, Hok.
  - rewrite handleNetworkFirst_run. cbv zeta. now rewrite Hnet, Hok.
  - rewrite (handleHTMLPage_no_ok h) by (right; now exists r).
    rewrite (handleHTMLPage_no_ok (without_network h)) by (now left).
    reflexivity.
  - apply handleHTMLPage_no_ok. right. now exists r.
  - now apply (strategy_not_ok h c request cs r).
  - destruct (strategy_not_ok h c request cs r Hnet Hok) as [_ ->].
    destruct c, (cached_for request cs); repeat constructor.
Qed.

Lemma non_ok_response_not_persisted_witness :
  (cached_for (get "/app.js") example_storage = None ->
   handleStaticAsset missing_host (get "/app.js") example_storage
     = (Fulfilled not_found, example_storage, [EvFetch (get "/app.js")])) /\
  handleNetworkFirst missing_host (get "/app.js") example_storage
    = (Fulfilled not_found, example_storage, [EvFetch (get "/app.js")]) /\
  handleHTMLPage missing_host (get "/app.js") example_storage
    = handleHTMLPage (without_network missing_host) (get "/app.js") example_storage /\
  handleHTMLPage missing_host (get "/app.js") example_storage
    = (Fulfilled (html_fallback missing_host (get "/app.js") example_storage),
       example_storage, [EvFetch (get "/app.js")]) /\
  (forall c : RoutingCategory,
     storage_after (strategy missing_host c (get "/app.js") example_storage)
       = example_storage /\
     Forall (fun e => written_cache e = None)
       (events (strategy missing_host c (get "/app.js") example_storage))).
Proof.
  apply (non_ok_response_not_persisted missing_host (get "/app.js")
           example_storage not_found); reflexivity.
Defined.

(** C8. Whatever the network and the storage layer do, each of the three
    handlers opens and writes no cache but the one named [CACHE_NAME]: the
    caches of every other name are left exactly as they were, and no name
    other than [CACHE_NAME] is added to the storage, so a stale cache that
    activation deleted is never created again. *)
Theorem strategy_writes_current_cache_only
    (h : Host) (c : RoutingCategory) (request : Request) (cs : CacheStorage) :
  CACHE_NAME = "spiritual-count-v1" /\
  Forall (fun e => written_cache e = None \/ written_cache e = Some CACHE_NAME)
    (events (strategy h c request cs)) /\
  CS.delete CACHE_NAME (storage_after (strategy h c request cs))
    = CS.delete CACHE_NAME cs /\
  (CS.keys (storage_after (strategy h c request cs)) = CS.keys cs \/
   CS.has CACHE_NAME cs = false /\
   CS.keys (storage_after (strategy h c request cs)) = CS.keys cs ++ [CACHE_NAME]).
Proof.
  split; [reflexivity |].
  destruct (strategy_shape h c request cs) as [[Hs He] | (r & Hs & He)];
    cbv zeta in *.
  - rewrite Hs. split.
    + destruct He as [-> | ->]; repeat constructor.
    + split; [reflexivity | now left].
  - rewrite He. split.
    + repeat constructor; now right.
    + assert (Hk : CS.keys (storage_after (strategy h c request cs))
                   = CS.keys (CS.open CACHE_NAME cs)).
      { destruct Hs as [-> | ->]; [reflexivity | apply keys_put]. }
      split.
      * destruct Hs as [-> | ->]; [| rewrite delete_put]; apply delete_open.
      * rewrite Hk, keys_open. destruct (CS.has CACHE_NAME cs); [now left |].
        now right.
Qed.

(** ** Install and activate *)

Section Lifecycle.

Implicit Types (cs : CacheStorage).

(** A chain that ends in a [catch] whose handler returns normally never
    rejects. *)
Lemma try_catch_swallows (body : M unit) cs :
  outcome (try_catch body (fun _ => mret tt) cs) = Fulfilled tt.
Proof.
  unfold try_catch, outcome.
  destruct (body cs) as [[[[] | e] cs1] evs1]; reflexivity.
Qed.

Lemma install_fulfils (h : Host) cs : outcome (install h cs) = Fulfilled tt.
Proof. apply try_catch_swallows. Qed.

Lemma promise_all_cons {A : Type} (m : M A) (rest : list (M A)) cs
    (a : A) cs1 evs1 (l : list A) cs2 evs2 :
  m cs = (Fulfilled a, cs1, evs1) ->
  promise_all rest cs1 = (Fulfilled l, cs2, evs2) ->
  promise_all (m :: rest) cs = (Fulfilled (a :: l), cs2, evs1 ++ evs2).
Proof.
  intros Hm Hrest. cbn [promise_all].
  unfold mbind, M_bind, settle, mret, M_ret. rewrite Hm, Hrest. simpl.
  now rewrite !app_nil_r.
Qed.

Lemma filter_ext_in {A : Type} (P1 P2 : A -> Prop)
    `{!forall x, Decision (P1 x), !forall x, Decision (P2 x)} (l : list A) :
  (forall x, x ∈ l -> (P1 x <-> P2 x)) -> filter P1 l = filter P2 l.
Proof.
  induction l as [|a l IH]; intros Hiff; [reflexivity |].
  assert (Hl : filter P1 l = filter P2 l).
  { apply IH. intros x Hx. apply Hiff. now right. }
  pose proof (Hiff a (list_elem_of_here a l)) as Ha.
  destruct (decide (P1 a)) as [H1 | H1].
  - rewrite !filter_cons_True by tauto. now rewrite Hl.
  - rewrite !filter_cons_False by tauto. exact Hl.
Qed.

Lemma evict_all (names : list string) cs :
  exists results,
    promise_all (map evict names) cs =
      (Fulfilled results,
       filter (fun e => e.1 = CACHE_NAME \/ e.1 ∉ names) cs,
       EvCacheDelete <$> filter (fun n => n ≠ CACHE_NAME) names).
Proof.
  revert cs. induction names as [|n names IH]; intros cs.
  - exists []. simpl. unfold mret, M_ret. f_equal. f_equal.
    symmetry. induction cs as [|e cs IHcs]; [reflexivity |].
    rewrite filter_cons_True; [now rewrite IHcs |].
    right. apply not_elem_of_nil.
  - destruct (decide (n = CACHE_NAME)) as [-> | Hne].
    + destruct (IH cs) as [results Hres]. exists (None :: results).
      assert (Hm : evict CACHE_NAME cs = (Fulfilled None, cs, [])) by reflexivity.
      cbn [map]. rewrite (promise_all_cons _ _ _ _ _ _ _ _ _ Hm Hres).
      rewrite filter_cons_False by (intros Hn; now apply Hn). simpl.
      f_equal. f_equal. apply list_filter_iff. intros e.
      rewrite not_elem_of_cons. split.
      * intros [He | He]; [now left |].
        destruct (decide (e.1 = CACHE_NAME)); [now left | now right].
      * intros [He | [_ He]]; [now left | now right].
    + destruct (IH (CS.delete n cs)) as [results Hres].
      exists (Some (CS.has n cs) :: results).
      assert (Hm : evict n cs
                   = (Fulfilled (Some (CS.has n cs)), CS.delete n cs,
                      [EvCacheDelete n])).
      { unfold evict. apply String.eqb_neq in Hne. rewrite Hne. reflexivity. }
      cbn [map]. rewrite (promise_all_cons _ _ _ _ _ _ _ _ _ Hm Hres).
      rewrite filter_cons_True by exact Hne. rewrite fmap_cons. simpl.
      f_equal. f_equal. unfold CS.delete. rewrite list_filter_filter.
      apply list_filter_iff. intros e. rewrite not_elem_of_cons. split.
      * intros [[He | He] Hn]; [now left | now right].
      * intros [He | [Hn He]]; [| split; [now right | exact Hn]].
        split; [now left | congruence].
Qed.

Lemma activate_run cs :
  activate cs =
    (Fulfilled tt, filter (fun e => e.1 = CACHE_NAME) cs,
     (EvCacheDelete <$> filter (fun n => n ≠ CACHE_NAME) (CS.keys cs))
       ++ [EvClientsClaim]).
Proof.
  unfold activate, try_catch, caches_keys, clients_claim, emit.
  unfold mbind at 1. unfold M_bind at 1. unfold mbind at 1. unfold M_bind at 1.
  destruct (evict_all (CS.keys cs) cs) as [results ->].
  simpl. f_equal. f_equal. apply filter_ext_in. intros e He. split.
  - intros [Hc | Hn]; [exact Hc |]. exfalso. apply Hn.
    unfold CS.keys. now apply list_elem_of_fmap_2.
  - intros Hc. now left.
Qed.

End Lifecycle.

Section Eviction.

Implicit Types (cs : CacheStorage).

Lemma has_cons_ne (n name : string) (c : Cache) cs :
  n ≠ name -> CS.has name ((n, c) :: cs) = CS.has name cs.
Proof.
  intros Hne. unfold CS.has. simpl.
  apply String.eqb_neq in Hne. now rewrite Hne.
Qed.

Lemma has_cons_eq (name : string) (c : Cache) cs :
  CS.has name ((name, c) :: cs) = true.
Proof. unfold CS.has. simpl. now rewrite String.eqb_refl. Qed.

Lemma keys_filter_current cs :
  CS.wf cs ->
  CS.keys (filter (fun e => e.1 = CACHE_NAME) cs)
    = if CS.has CACHE_NAME cs then [CACHE_NAME] else [].
Proof.
  unfold CS.wf. induction cs as [|[n c] cs IH]; intros Hwf; [reflexivity |].
  unfold CS.keys in Hwf. rewrite fmap_cons in Hwf.
  apply NoDup_cons in Hwf as [Hn Hwf]. simpl in Hn.
  destruct (decide (n = CACHE_NAME)) as [-> | Hne].
  - rewrite has_cons_eq, filter_cons_True by reflexivity.
    unfold CS.keys in *. rewrite fmap_cons, (IH Hwf). simpl.
    destruct (CS.has CACHE_NAME cs) eqn:E; [| reflexivity].
    apply has_elem_of in E. contradiction.
  - rewrite (has_cons_ne _ _ _ _ Hne), filter_cons_False by exact Hne.
    now apply IH.
Qed.

Lemma lookup_filter_current cs :
  CS.lookup CACHE_NAME (filter (fun e => e.1 = CACHE_NAME) cs)
    = CS.lookup CACHE_NAME cs.
Proof.
  induction cs as [|[n c] cs IH]; [reflexivity |].
  destruct (decide (n = CACHE_NAME)) as [-> | Hne].
  - rewrite filter_cons_True by reflexivity. cbn [CS.lookup].
    now rewrite String.eqb_refl.
  - rewrite filter_cons_False by exact Hne. cbn [CS.lookup].
    apply String.eqb_neq in Hne. now rewrite Hne.
Qed.

Lemma activate_preserves_wf cs : CS.wf cs -> CS.wf (storage_after (activate cs)).
Proof.
  intros Hwf. rewrite activate_run. unfold storage_after, CS.wf. simpl.
  rewrite (keys_filter_current cs Hwf).
  destruct (CS.has CACHE_NAME cs); [apply NoDup_singleton | constructor].
Qed.

End Eviction.

(** C1. A core asset that fails to be fetched makes [cache.addAll] reject,
    but the [catch] that ends the chain turns every rejection into a
    fulfilled promise: whatever the network and the storage do, the promise
    given to [event.waitUntil] fulfils and the host installs the worker.
    With the style sheet answering 404 the worker is installed over an empty
    cache; it is activated at once when no worker was active, and waits
    behind an active one. *)
Theorem install_failure_not_propagated :
  (forall (h : Host) (cs : CacheStorage), (install_phase h cs).1.1 = Installed) /\
  "/style.css" ∈ CORE_ASSETS /\
  network style_missing_host (request_of_path style_missing_host "/style.css")
    = Some not_found /\
  ok not_found = false /\
  install_phase style_missing_host []
    = (Installed, [(CACHE_NAME, ∅)],
       EvCacheOpen CACHE_NAME
         :: map (fun p => EvFetch (request_of_path style_missing_host p)) CORE_ASSETS) /\
  after_install (mkRegistration None None) CACHE_VERSION
      (install_phase style_missing_host []).1.1
      (install_phase style_missing_host []).2
    = mkRegistration (Some CACHE_VERSION) None /\
  after_install (mkRegistration (Some "0.9.0") None) CACHE_VERSION
      (install_phase style_missing_host []).1.1
      (install_phase style_missing_host []).2
    = mkRegistration (Some "0.9.0") (Some CACHE_VERSION).
Proof.
  split.
  - intros h cs. unfold install_phase.
    pose proof (install_fulfils h cs) as Hf. unfold outcome in Hf.
    destruct (install h cs) as [[o cs'] evs]. simpl in *. now rewrite Hf.
  - split; [repeat constructor |].
    repeat split; vm_compute; reflexivity.
Qed.

(** C5, as the code has it. Activation deletes every cache whose name
    differs from [CACHE_NAME] and no other, and leaves the current cache as
    it was; afterwards the storage holds the current cache alone when it
    existed before the activation, and no cache at all when it did not,
    however many stale caches there were. *)
Theorem activate_evicts_stale (cs : CacheStorage) :
  CS.wf cs ->
  outcome (activate cs) = Fulfilled tt /\
  CS.keys (storage_after (activate cs))
    = (if CS.has CACHE_NAME cs then [CACHE_NAME] else []) /\
  CS.lookup CACHE_NAME (storage_after (activate cs)) = CS.lookup CACHE_NAME cs /\
  events (activate cs)
    = (EvCacheDelete <$> filter (fun n => n ≠ CACHE_NAME) (CS.keys cs))
        ++ [EvClientsClaim].
Proof.
  intros Hwf. rewrite activate_run. unfold outcome, storage_after, events. simpl.
  split; [reflexivity |]. split; [now apply keys_filter_current |].
  split; [apply lookup_filter_current | reflexivity].
Qed.

Lemma activate_evicts_stale_witness :
  outcome (activate example_storage) = Fulfilled tt /\
  CS.keys (storage_after (activate example_storage))
    = (if CS.has CACHE_NAME example_storage then [CACHE_NAME] else []) /\
  CS.lookup CACHE_NAME (storage_after (activate example_storage))
    = CS.lookup CACHE_NAME example_storage /\
  events (activate example_storage)
    = (EvCacheDelete <$> filter (fun n => n ≠ CACHE_NAME) (CS.keys example_storage))
        ++ [EvClientsClaim].
Proof.
  apply (activate_evicts_stale example_storage).
  unfold CS.wf. apply (bool_decide_unpack _). vm_compute. exact I.
Defined.

(** C5, as the specification states it, fails: when the storage holds only a
    stale cache, activation leaves no cache at all, not exactly one. *)
Lemma activate_without_current_cache :
  CS.wf stale_storage /\
  CS.keys stale_storage = ["spiritual-count-v0"] /\
  CS.keys (storage_after (activate stale_storage)) = [] /\
  CS.keys (storage_after (activate stale_storage)) <> [CACHE_NAME].
Proof.
  split; [apply NoDup_singleton |].
  split; [reflexivity |]. split; [reflexivity | discriminate].
Qed.

(** ** The message listener *)

Section Messages.

Implicit Types (event : MessageEvent) (cs : CacheStorage).

Lemma field_absent (k : string) (fields : list (string * JsValue)) :
  k ∉ fields.*1 -> field k fields = JsUndefined.
Proof.
  induction fields as [|[k' v] fields IH]; intros Hk; [reflexivity |].
  rewrite fmap_cons in Hk. apply not_elem_of_cons in Hk as [Hne Hk].
  simpl in *. destruct (String.eqb k' k) eqn:E.
  - apply String.eqb_eq in E. congruence.
  - now apply IH.
Qed.

(** A message whose guard [event.data && event.data.type] is false is
    dropped. *)
Lemma onMessage_guard_false event cs :
  truthy (data event) && truthy (get_type (data event)) = false ->
  onMessage event cs = (Fulfilled tt, cs, []).
Proof. intros Hg. unfold onMessage. now rewrite Hg. Qed.

(** A message whose type is none of the three cases is dropped. *)
Lemma onMessage_default event cs :
  strict_eq_string (get_type (data event)) "GET_VERSION" = false ->
  strict_eq_string (get_type (data event)) "SKIP_WAITING" = false ->
  strict_eq_string (get_type (data event)) "CACHE_STATUS" = false ->
  onMessage event cs = (Fulfilled tt, cs, []).
Proof.
  intros H1 H2 H3. unfold onMessage. rewrite H1, H2, H3.
  now destruct (truthy (data event) && truthy (get_type (data event))).
Qed.

Lemma postMessage_replies event (m : Message) cs :
  length (replies (events (postMessage event m cs))) <= 1.
Proof. unfold postMessage. destruct (ports event); simpl; lia. Qed.

Lemma onMessage_at_most_one event cs :
  length (replies (events (onMessage event cs))) <= 1.
Proof.
  unfold onMessage.
  destruct (truthy (data event) && truthy (get_type (data event)));
    [| simpl; lia].
  destruct (strict_eq_string (get_type (data event)) "GET_VERSION");
    [apply postMessage_replies |].
  destruct (strict_eq_string (get_type (data event)) "SKIP_WAITING").
  { unfold skipWaiting, postMessage, emit, mbind, M_bind.
    destruct (ports event); simpl; lia. }
  destruct (strict_eq_string (get_type (data event)) "CACHE_STATUS");
    [| simpl; lia].
  unfold caches_has, postMessage, emit, mbind, M_bind.
  destruct (ports event); simpl; lia.
Qed.

Lemma get_type_string_truthy event (t : string) :
  get_type (data event) = JsString t -> t ≠ "" ->
  truthy (data event) && truthy (get_type (data event)) = true.
Proof.
  intros Ht Hne. rewrite Ht. destruct (data event); try discriminate.
  simpl. apply String.eqb_neq in Hne. now rewrite Hne.
Qed.

End Messages.

(** C6. Every message gets at most one reply. A message of type
    "GET_VERSION" that comes with a reply port gets exactly one, on that
    port, carrying the configured version string "1.0.0"; a message whose
    type is a string other than the three known ones, such as "bogus", gets
    none. *)
Theorem onMessage_replies (event : MessageEvent) (cs : CacheStorage) :
  length (replies (events (onMessage event cs))) <= 1 /\
  (forall (port : nat) (rest : list nat),
     get_type (data event) = JsString "GET_VERSION" ->
     ports event = port :: rest ->
     onMessage event cs
       = (Fulfilled tt, cs, [EvPostMessage port (MsgVersion "1.0.0")])) /\
  (forall t : string,
     get_type (data event) = JsString t ->
     t ≠ "GET_VERSION" -> t ≠ "SKIP_WAITING" -> t ≠ "CACHE_STATUS" ->
     onMessage event cs = (Fulfilled tt, cs, [])) /\
  replies (events (onMessage version_request cs)) = [MsgVersion CACHE_VERSION] /\
  replies (events (onMessage bogus_request cs)) = [].
Proof.
  split; [apply onMessage_at_most_one |]. split; [| split].
  - intros port rest Ht Hp. unfold onMessage.
    rewrite (get_type_string_truthy event "GET_VERSION" Ht) by discriminate.
    rewrite Ht. simpl. unfold postMessage. now rewrite Hp.
  - intros t Ht H1 H2 H3. apply onMessage_default; rewrite Ht; simpl;
      now apply String.eqb_neq.
  - split; reflexivity.
Qed.

Lemma onMessage_replies_witness :
  onMessage version_request example_storage
    = (Fulfilled tt, example_storage, [EvPostMessage 0 (MsgVersion "1.0.0")]) /\
  onMessage bogus_request example_storage = (Fulfilled tt, example_storage, []).
Proof.
  pose proof (onMessage_replies version_request example_storage) as (_ & Hv & _).
  pose proof (onMessage_replies bogus_request example_storage) as (_ & _ & Hb & _).
  split.
  - apply (Hv 0%nat []); reflexivity.
  - apply (Hb "bogus"); [reflexivity | discriminate | discriminate | discriminate].
Defined.

(** C10. A message whose data is [null] or [undefined], or lacks a [type]
    field (an object without that key, and any string, number or boolean),
    or whose [type] is [undefined], gets no reply: the listener does nothing
    at all. *)
Theorem onMessage_malformed (event : MessageEvent) (cs : CacheStorage) :
  (data event = JsNull \/ data event = JsUndefined \/
   lacks_type (data event) \/ get_type (data event) = JsUndefined) ->
  onMessage event cs = (Fulfilled tt, cs, []) /\
  replies (events (onMessage event cs)) = [].
Proof.
  intros Hd.
  assert (Ht : get_type (data event) = JsUndefined).
  { destruct Hd as [-> | [-> | [Hl | Ht]]]; try reflexivity; [| exact Ht].
    destruct (data event) as [| | | | | |fields]; try reflexivity.
    simpl in *. now apply field_absent. }
  assert (Hrun : onMessage event cs = (Fulfilled tt, cs, [])).
  { apply onMessage_guard_false. rewrite Ht. simpl. apply andb_false_r. }
  now rewrite Hrun.
Qed.

Lemma onMessage_malformed_witness :
  (onMessage (mkMessageEvent (JsObject [("kind", JsString "GET_VERSION")]) [0%nat])
       example_storage
     = (Fulfilled tt, example_storage, []) /\
   replies (events (onMessage
              (mkMessageEvent (JsObject [("kind", JsString "GET_VERSION")]) [0%nat])
              example_storage)) = []) /\
  (onMessage (mkMessageEvent (JsString "GET_VERSION") [0%nat]) example_storage
     = (Fulfilled tt, example_storage, []) /\
   replies (events (onMessage (mkMessageEvent (JsString "GET_VERSION") [0%nat])
                      example_storage)) = []).
Proof.
  split.
  - apply (onMessage_malformed
             (mkMessageEvent (JsObject [("kind", JsString "GET_VERSION")]) [0%nat])
             example_storage).
    right. right. left. simpl.
    apply (bool_decide_unpack _). vm_compute. exact I.
  - apply (onMessage_malformed
             (mkMessageEvent (JsString "GET_VERSION") [0%nat]) example_storage).
    right. right. left. simpl. exact I.
Defined.

(** ** Scenarios *)

(** With every asset served, the install stores the ten assets in the
    current cache and asks to skip the waiting period. *)
Example install_online :
  (install_phase online_host []).1.1 = Installed /\
  CS.keys (install_phase online_host []).1.2 = [CACHE_NAME] /\
  (size <$> CS.lookup CACHE_NAME (install_phase online_host []).1.2) = Some 10%nat /\
  existsb is_skipWaiting (install_phase online_host []).2 = true.
Proof. repeat split; vm_compute; reflexivity. Qed.

(** With the style sheet missing nothing is stored and the waiting period
    is not skipped. *)
Example install_style_missing :
  CS.lookup CACHE_NAME (install_phase style_missing_host []).1.2 = Some ∅ /\
  existsb is_skipWaiting (install_phase style_missing_host []).2 = false.
Proof. split; vm_compute; reflexivity. Qed.

(** An HTML page that the network serves is answered from the network and
    stored, whatever the cache held. *)
Example handleHTMLPage_prefers_network :
  outcome (handleHTMLPage online_host (get "/") root_path_storage)
    = Fulfilled (ok_response "/") /\
  cached_for (get "/") root_path_storage = Some (ok_response "<html>home</html>") /\
  cached_for (get "/")
    (storage_after (handleHTMLPage online_host (get "/") root_path_storage))
    = Some (ok_response "/").
Proof. repeat split; vm_compute; reflexivity. Qed.

(** The root document of the fallback chain is [/index.html]: an entry
    stored under the root path [/] is not consulted for another page. *)
Example handleHTMLPage_root_path_not_consulted :
  body <$> outcome_value (handleHTMLPage offline_host (get "/about.html") root_path_storage)
    = Some createOfflinePage.
Proof. vm_compute. reflexivity. Qed.

(** A static asset that is not cached is fetched, stored in the current
    cache, and served from the cache the next time. *)
Example handleStaticAsset_miss_then_hit :
  events (handleStaticAsset online_host (get "/script.js") stale_storage)
    = [ EvFetch (get "/script.js"); EvCacheOpen CACHE_NAME;
        EvCachePut CACHE_NAME "https://count.example/script.js" ] /\
  events (handleStaticAsset online_host (get "/script.js")
            (storage_after (handleStaticAsset online_host (get "/script.js")
                              stale_storage)))
    = [].
Proof. split; vm_compute; reflexivity. Qed.

(** Requests that the listener leaves to the browser. *)
Example onFetch_passes_through :
  route online_host (mkRequest "POST" (mkURL example_origin "/api/data" "")) = None /\
  route online_host (mkRequest "GET" (mkURL "https://cdn.example" "/font.woff2" "")) = None /\
  route online_host (get "/api/data") = Some Other.
Proof. repeat split. Qed.

(** ** Install, run to its end *)

Section InstallRun.

Context (h : Host).
Implicit Types (cs : CacheStorage) (l : list (Request * Response)).

Lemma fetch_all_run (paths : list string) cs :
  promise_all
    (map (fun p => o ← settle (fetch h (request_of_path h p));
                   mret (request_of_path h p, o)) paths) cs
  = (Fulfilled
       (map (fun p => (request_of_path h p, fetch_outcome h (request_of_path h p)))
          paths),
     cs, map (fun p => EvFetch (request_of_path h p)) paths).
Proof.
  induction paths as [|p paths IH]; [reflexivity |].
  assert (Hm : (o ← settle (fetch h (request_of_path h p));
                mret (request_of_path h p, o)) cs
               = (Fulfilled (request_of_path h p,
                             fetch_outcome h (request_of_path h p)),
                  cs, [EvFetch (request_of_path h p)])).
  { unfold mbind, M_bind, settle, fetch, fetch_outcome, mret, M_ret.
    now destruct (network h (request_of_path h p)). }
  cbn [map]. now rewrite (promise_all_cons _ _ _ _ _ _ _ _ _ Hm IH).
Qed.

(** The responses [cache.addAll] stores are the ok answers of the network
    to the requests for the given paths, in order. *)
Lemma addAll_responses_spec (paths : list string) l :
  addAll_responses
    (map (fun p => (request_of_path h p, fetch_outcome h (request_of_path h p)))
       paths) = Some l ->
  l = map (fun p => (request_of_path h p,
                     default (new_Response "" 0 "" [])
                       (network h (request_of_path h p)))) paths /\
  Forall (fun p => exists r, network h (request_of_path h p) = Some r /\ ok r = true)
    paths.
Proof.
  revert l. induction paths as [|p paths IH]; intros l Hl.
  - inversion Hl. split; [reflexivity | constructor].
  - cbn [map addAll_responses] in Hl. unfold fetch_outcome in Hl at 1.
    destruct (network h (request_of_path h p)) as [r |] eqn:Hn; [| discriminate].
    destruct (ok r) eqn:Hok; [| discriminate].
    destruct (addAll_responses _) as [l' |] eqn:Hl'; [| discriminate].
    inversion Hl; subst l. destruct (IH l' eq_refl) as [-> Hall].
    split.
    + cbn [map]. now rewrite Hn.
    + constructor; [now exists r | exact Hall].
Qed.

Lemma addAll_responses_None (paths : list string) :
  addAll_responses
    (map (fun p => (request_of_path h p, fetch_outcome h (request_of_path h p)))
       paths) = None <->
  Exists (fun p => network h (request_of_path h p) = None \/
                   exists r, network h (request_of_path h p) = Some r /\ ok r = false)
    paths.
Proof.
  induction paths as [|p paths IH].
  - split; [discriminate | intros H; inversion H].
  - cbn [map addAll_responses]. unfold fetch_outcome at 1.
    destruct (network h (request_of_path h p)) as [r |] eqn:Hn.
    + destruct (ok r) eqn:Hok.
      * destruct (addAll_responses _) as [l' |] eqn:Hl'.
        -- split; [discriminate |]. intros H. inversion H as [? ? Hp | ? ? Hp]; subst.
           ++ destruct Hp as [Hp | (r' & Hr' & Hok')]; congruence.
           ++ apply IH in Hp. discriminate.
        -- split; [| reflexivity]. intros _. right. now apply IH.
      * split; [| reflexivity]. intros _. left. right. now exists r.
    + split; [| reflexivity]. intros _. left. now left.
Qed.

Lemma put_all_run l cs :
  Forall (fun qr => method qr.1 = "GET") l ->
  storage_accepts_all h l = true ->
  promise_all (map (fun qr => cache_put h CACHE_NAME qr.1 qr.2) l) cs
  = (Fulfilled (map (fun _ => tt) l), put_all l cs,
     map (fun qr => EvCachePut CACHE_NAME (href (url qr.1))) l).
Proof.
  revert cs. induction l as [|[q r] l IH]; intros cs Hget Hacc; [reflexivity |].
  apply Forall_cons in Hget as [Hq Hget].
  unfold storage_accepts_all in Hacc. cbn [forallb] in Hacc.
  apply andb_true_iff in Hacc as [Hr Hacc]. simpl in Hq, Hr.
  assert (Hm : cache_put h CACHE_NAME q r cs
               = (Fulfilled tt, CS.put CACHE_NAME (href (url q)) r cs,
                  [EvCachePut CACHE_NAME (href (url q))])).
  { unfold cache_put. now rewrite Hq, Hr. }
  cbn [map fst snd]. rewrite (promise_all_cons _ _ _ _ _ _ _ _ _ Hm (IH _ Hget Hacc)).
  reflexivity.
Qed.

Lemma optional_run (assets : list string) cs :
  promise_all
    (map (fun asset =>
            try_catch
              (response ← fetch h (request_of_path h asset);
               if ok response
               then cache_put h CACHE_NAME (request_of_path h asset) response
               else mret tt)
              (fun _ => mret tt)) assets) cs
  = (Fulfilled (map (fun _ => tt) assets),
     put_all (omap (optional_entry h) assets) cs,
     flat_map (optional_events h) assets).
Proof.
  revert cs. induction assets as [|p assets IH]; intros cs; [reflexivity |].
  assert (Hm : try_catch
                 (response ← fetch h (request_of_path h p);
                  if ok response
                  then cache_put h CACHE_NAME (request_of_path h p) response
                  else mret tt)
                 (fun _ => mret tt) cs
               = (Fulfilled tt, put_all (from_option (fun e => [e]) [] (optional_entry h p)) cs,
                  optional_events h p)).
  { unfold try_catch, mbind, M_bind, fetch, cache_put, optional_entry,
      optional_events, mret, M_ret.
    destruct (network h (request_of_path h p)) as [r |]; [| reflexivity].
    destruct (ok r); [| reflexivity]. simpl.
    now destruct (storage_accepts h _ r). }
  cbn [map]. rewrite (promise_all_cons _ _ _ _ _ _ _ _ _ Hm (IH _)).
  f_equal. f_equal. cbn [omap list_omap].
  now destruct (optional_entry h p).
Qed.

Lemma cache_addAll_run cs :
  cache_addAll h CACHE_NAME CORE_ASSETS cs =
    match core_responses h with
    | Some l =>
        if storage_accepts_all h l
        then (Fulfilled tt, put_all l cs,
              map (fun p => EvFetch (request_of_path h p)) CORE_ASSETS ++
              map (fun qr => EvCachePut CACHE_NAME (href (url qr.1))) l)
        else (Rejected QuotaExceededError, cs,
              map (fun p => EvFetch (request_of_path h p)) CORE_ASSETS)
    | None =>
        (Rejected (TypeError "Request failed"), cs,
         map (fun p => EvFetch (request_of_path h p)) CORE_ASSETS)
    end.
Proof.
  unfold cache_addAll. unfold mbind at 1. unfold M_bind at 1.
  rewrite fetch_all_run. fold (core_responses h).
  destruct (core_responses h) as [l |] eqn:Hcore.
  - fold (storage_accepts_all h l).
    destruct (storage_accepts_all h l) eqn:Hacc.
    + unfold mbind, M_bind. rewrite put_all_run; [| | exact Hacc].
      * unfold mret, M_ret. now rewrite app_nil_r.
      * apply addAll_responses_spec in Hcore as [-> _].
        apply Forall_fmap, Forall_forall. intros p _. reflexivity.
    + unfold throw. now rewrite app_nil_r.
  - unfold throw. now rewrite app_nil_r.
Qed.

End InstallRun.

Section InstallClosedForm.

Context (h : Host).
Implicit Types (cs : CacheStorage) (l : list (Request * Response)).

Lemma has_open (name : string) cs : CS.has name (CS.open name cs) = true.
Proof.
  unfold CS.open. destruct (CS.has name cs) eqn:E; [exact E |].
  apply has_elem_of. unfold CS.keys. rewrite fmap_app. apply elem_of_app.
  right. now left.
Qed.

Lemma open_existing (name : string) cs : CS.has name cs = true -> CS.open name cs = cs.
Proof. intros E. unfold CS.open. now rewrite E. Qed.

Lemma has_put (n name key : string) (r : Response) cs :
  CS.has n (CS.put name key r cs) = CS.has n cs.
Proof.
  destruct (CS.has n cs) eqn:E.
  - apply has_elem_of. rewrite keys_put. now apply has_elem_of.
  - destruct (CS.has n (CS.put name key r cs)) eqn:E'; [| reflexivity].
    apply has_elem_of in E'. rewrite keys_put in E'. apply has_elem_of in E'.
    congruence.
Qed.

Lemma has_put_all (n : string) l cs : CS.has n (put_all l cs) = CS.has n cs.
Proof.
  unfold put_all. revert cs. induction l as [|qr l IH]; intros cs; [reflexivity |].
  simpl. now rewrite IH, has_put.
Qed.

Lemma put_all_app l1 l2 cs : put_all (l1 ++ l2) cs = put_all l2 (put_all l1 cs).
Proof. unfold put_all. apply foldl_app. Qed.

Lemma install_run cs :
  install h cs =
    (Fulfilled tt, put_all (installed_entries h) (CS.open CACHE_NAME cs),
     install_events h).
Proof.
  unfold install. unfold try_catch at 1.
  unfold mbind at 1. unfold M_bind at 1. unfold caches_open at 1.
  unfold mbind at 1. unfold M_bind at 1. rewrite cache_addAll_run.
  unfold installed_entries, install_events.
  destruct (core_responses h) as [l |]; [| reflexivity].
  destruct (storage_accepts_all h l); [| reflexivity].
  unfold mbind at 1. unfold M_bind at 1. unfold caches_open at 1.
  unfold mbind at 1. unfold M_bind at 1. rewrite optional_run.
  unfold skipWaiting, emit. cbv beta iota.
  rewrite open_existing by (now rewrite has_put_all, has_open).
  rewrite put_all_app. simpl. rewrite <- !app_assoc. reflexivity.
Qed.

End InstallClosedForm.

(** ** The current cache after a list of writes *)

Section Writes.

Implicit Types (cs : CacheStorage) (l : list (Request * Response)) (m : Cache).

Lemma put_alter (name key : string) (r : Response) cs :
  CS.put name key r cs = alter_cache name (fun m => <[key := r]> m) cs.
Proof.
  induction cs as [|[n c] cs IH]; [reflexivity |].
  cbn [CS.put alter_cache]. destruct (String.eqb n name); [reflexivity |].
  now rewrite IH.
Qed.

Lemma alter_alter (name : string) (f g : Cache -> Cache) cs :
  alter_cache name f (alter_cache name g cs) = alter_cache name (fun m => f (g m)) cs.
Proof.
  induction cs as [|[n c] cs IH]; [reflexivity |].
  cbn [alter_cache]. destruct (String.eqb n name) eqn:E; cbn [alter_cache];
    rewrite E; [reflexivity | now rewrite IH].
Qed.

Lemma alter_ext (name : string) (f g : Cache -> Cache) cs :
  (forall m, f m = g m) -> alter_cache name f cs = alter_cache name g cs.
Proof.
  intros Hfg. induction cs as [|[n c] cs IH]; [reflexivity |].
  cbn [alter_cache]. destruct (String.eqb n name); [now rewrite Hfg | now rewrite IH].
Qed.

Lemma alter_id (name : string) cs : alter_cache name (fun m => m) cs = cs.
Proof.
  induction cs as [|[n c] cs IH]; [reflexivity |].
  cbn [alter_cache]. destruct (String.eqb n name); [reflexivity | now rewrite IH].
Qed.

Lemma put_all_alter l cs : put_all l cs = alter_cache CACHE_NAME (insert_all l) cs.
Proof.
  unfold put_all, insert_all. revert cs.
  induction l as [|[q r] l IH] using rev_ind; intros cs.
  - simpl. now rewrite alter_id.
  - rewrite !foldl_app. simpl. rewrite put_alter, IH, alter_alter.
    apply alter_ext. intros m. now rewrite foldl_app.
Qed.

Lemma lookup_alter_cache (name : string) (f : Cache -> Cache) cs :
  CS.lookup name (alter_cache name f cs) = f <$> CS.lookup name cs.
Proof.
  induction cs as [|[n c] cs IH]; [reflexivity |].
  cbn [alter_cache CS.lookup]. destruct (String.eqb n name) eqn:E;
    cbn [CS.lookup]; rewrite E; [reflexivity | exact IH].
Qed.

Lemma lookup_open (name : string) cs :
  CS.lookup name (CS.open name cs) = Some (cache_content name cs).
Proof.
  unfold CS.open, CS.has, cache_content.
  destruct (CS.lookup name cs) as [m |] eqn:E; [exact E |].
  induction cs as [|[n c] cs IH]; simpl.
  - now rewrite String.eqb_refl.
  - simpl in E. destruct (String.eqb n name); [discriminate | now apply IH].
Qed.

Lemma cache_content_put_all_open l cs :
  cache_content CACHE_NAME (put_all l (CS.open CACHE_NAME cs))
  = insert_all l (cache_content CACHE_NAME cs).
Proof.
  unfold cache_content at 1.
  now rewrite put_all_alter, lookup_alter_cache, lookup_open.
Qed.

(** The value the writes leave under a key that they write with one value
    only. *)
Lemma insert_all_lookup l m (q : Request) (r : Response) :
  (q, r) ∈ l ->
  (forall q' r', (q', r') ∈ l -> href (url q') = href (url q) -> r' = r) ->
  insert_all l m !! href (url q) = Some r.
Proof.
  unfold insert_all. revert m.
  induction l as [|[q0 r0] l IH] using rev_ind; intros m Hin Hfun.
  - inversion Hin.
  - rewrite foldl_app. simpl.
    destruct (decide (href (url q0) = href (url q))) as [Heq | Hne].
    + rewrite Heq, lookup_insert_eq. f_equal. apply (Hfun q0 r0); [| exact Heq].
      apply elem_of_app. right. now left.
    + rewrite lookup_insert_ne by exact Hne.
      apply elem_of_app in Hin as [Hin | Hin].
      * apply IH; [exact Hin |]. intros q' r' Hin'. apply Hfun.
        apply elem_of_app. now left.
      * apply list_elem_of_singleton in Hin. congruence.
Qed.

Lemma insert_all_lookup_other l m (k : string) :
  (forall q r, (q, r) ∈ l -> href (url q) ≠ k) ->
  insert_all l m !! k = m !! k.
Proof.
  unfold insert_all. revert m.
  induction l as [|[q0 r0] l IH] using rev_ind; intros m Hk; [reflexivity |].
  rewrite foldl_app. simpl. rewrite lookup_insert_ne.
  - apply IH. intros q r Hin. apply (Hk q r). apply elem_of_app. now left.
  - apply (Hk q0 r0). apply elem_of_app. right. now left.
Qed.

(** Writing the same entries again changes nothing. *)
Lemma insert_all_twice l m :
  (forall q r q' r', (q, r) ∈ l -> (q', r') ∈ l ->
                     href (url q') = href (url q) -> r' = r) ->
  insert_all l (insert_all l m) = insert_all l m.
Proof.
  intros Hfun. apply map_eq. intros k.
  destruct (decide (Exists (fun qr => href (url qr.1) = k) l)) as [Hex | Hno].
  - apply Exists_exists in Hex as ([q r] & Hin & <-). simpl.
    rewrite !(insert_all_lookup l _ q r); try exact Hin; try reflexivity;
      intros q' r' Hin'; now apply (Hfun q r q' r').
  - rewrite (insert_all_lookup_other l (insert_all l m)); [reflexivity |].
    intros q r Hin Hk. apply Hno. apply Exists_exists. now exists (q, r).
Qed.

End Writes.

(** ** What an install leaves in the current cache *)

Section InstallContent.

Context (h : Host).
Implicit Types (cs : CacheStorage) (l : list (Request * Response)) (p : string).

Lemma append_cancel_l (a b c : string) : a +:+ b = a +:+ c -> b = c.
Proof.
  induction a as [|x a IH]; simpl; intros H; [exact H |].
  injection H as H. now apply IH.
Qed.

Lemma href_request_of_path_inj p p' :
  href (url (request_of_path h p)) = href (url (request_of_path h p')) -> p = p'.
Proof.
  unfold href, request_of_path. simpl. intros H.
  apply append_cancel_l in H. revert p' H.
  induction p as [|x p IH]; intros [|y p'] H; simpl in H; try discriminate;
    [reflexivity |].
  injection H as -> H. f_equal. now apply IH.
Qed.

Lemma keys_put_all l cs : CS.keys (put_all l cs) = CS.keys cs.
Proof.
  unfold put_all. revert cs. induction l as [|qr l IH]; intros cs; [reflexivity |].
  simpl. now rewrite IH, keys_put.
Qed.

Lemma core_responses_served :
  Forall (core_asset_served h) CORE_ASSETS ->
  exists l, core_responses h = Some l /\ storage_accepts_all h l = true /\
            forall p, p ∈ CORE_ASSETS ->
                      exists r, network h (request_of_path h p) = Some r /\
                                (request_of_path h p, r) ∈ l.
Proof.
  intros Hall. unfold core_responses.
  destruct (addAll_responses _) as [l |] eqn:Hl.
  - exists l. split; [reflexivity |].
    apply addAll_responses_spec in Hl as [-> _]. split.
    + unfold storage_accepts_all. apply forallb_forall. intros qr Hin.
      apply list_elem_of_In, list_elem_of_fmap in Hin as (p & -> & Hp).
      rewrite Forall_forall in Hall. destruct (Hall p Hp) as (r & Hn & _ & Hacc).
      simpl. now rewrite Hn.
    + intros p Hp. rewrite Forall_forall in Hall.
      destruct (Hall p Hp) as (r & Hn & _ & _). exists r. split; [exact Hn |].
      apply list_elem_of_fmap. exists p. split; [| exact Hp]. now rewrite Hn.
  - exfalso. apply addAll_responses_None in Hl.
    apply Exists_exists in Hl as (p & Hp & Hbad).
    rewrite Forall_forall in Hall. destruct (Hall p Hp) as (r & Hn & Hok & _).
    destruct Hbad as [Hbad | (r' & Hr' & Hok')]; congruence.
Qed.

Lemma core_fails_no_entries :
  Exists (core_asset_fails h) CORE_ASSETS ->
  installed_entries h = [] /\
  install_events h
    = EvCacheOpen CACHE_NAME ::
      map (fun p => EvFetch (request_of_path h p)) CORE_ASSETS.
Proof.
  intros Hex. unfold installed_entries, install_events.
  destruct (core_responses h) as [l |] eqn:Hl;
    [| split; [reflexivity | now rewrite app_nil_r]].
  assert (Hacc : storage_accepts_all h l = false).
  { unfold core_responses in Hl.
    apply addAll_responses_spec in Hl as [-> Hok].
    apply Exists_exists in Hex as (p & Hp & Hbad).
    rewrite Forall_forall in Hok. destruct (Hok p Hp) as (r & Hn & Hr).
    unfold core_asset_fails in Hbad. rewrite Hn in Hbad.
    destruct Hbad as [Hbad | Hbad]; [congruence |].
    unfold storage_accepts_all.
    destruct (forallb _ _) eqn:Hall; [| reflexivity].
    rewrite forallb_forall in Hall.
    specialize (Hall (request_of_path h p,
                      default (new_Response "" 0 "" [])
                        (network h (request_of_path h p)))).
    rewrite Hn in Hall. cbn [fst snd default from_option] in Hall.
    assert (Hacc : storage_accepts h
                     (href (url (request_of_path h p))) r = true).
    { apply Hall. apply list_elem_of_In, list_elem_of_fmap.
      exists p. split; [| exact Hp]. now rewrite Hn. }
    congruence. }
  rewrite Hacc. split; [reflexivity | now rewrite app_nil_r].
Qed.

(** Every entry an install writes is the network's ok answer to the request
    for an asset path. *)
Lemma installed_entry_sound (q : Request) (r : Response) :
  (q, r) ∈ installed_entries h ->
  exists p, q = request_of_path h p /\ network h q = Some r /\ ok r = true.
Proof.
  unfold installed_entries.
  destruct (core_responses h) as [l |] eqn:Hl; [| intros H; inversion H].
  destruct (storage_accepts_all h l); [| intros H; inversion H].
  intros Hin. apply elem_of_app in Hin as [Hin | Hin].
  - unfold core_responses in Hl. apply addAll_responses_spec in Hl as [-> Hok].
    apply list_elem_of_fmap in Hin as (p & Heq & Hp).
    rewrite Forall_forall in Hok. destruct (Hok p Hp) as (r' & Hn & Hr').
    rewrite Hn in Heq. simpl in Heq. inversion Heq; subst. now exists p.
  - apply list_elem_of_omap in Hin as (p & Hp & Hentry).
    unfold optional_entry in Hentry.
    destruct (network h (request_of_path h p)) as [r' |] eqn:Hn; [| discriminate].
    destruct (ok r') eqn:Hok; simpl in Hentry; [| discriminate].
    destruct (storage_accepts h _ r'); [| discriminate].
    inversion Hentry; subst. now exists p.
Qed.

Lemma installed_entries_functional (q q' : Request) (r r' : Response) :
  (q, r) ∈ installed_entries h -> (q', r') ∈ installed_entries h ->
  href (url q') = href (url q) -> r' = r.
Proof.
  intros Hin Hin' Hk.
  apply installed_entry_sound in Hin as (p & -> & Hn & _).
  apply installed_entry_sound in Hin' as (p' & -> & Hn' & _).
  apply href_request_of_path_inj in Hk. subst p'. congruence.
Qed.

Lemma install_content cs :
  cache_content CACHE_NAME (storage_after (install h cs))
  = insert_all (installed_entries h) (cache_content CACHE_NAME cs).
Proof. rewrite install_run. apply cache_content_put_all_open. Qed.

Lemma install_wf cs : CS.wf cs -> CS.wf (storage_after (install h cs)).
Proof.
  intros Hwf. rewrite install_run. unfold storage_after, CS.wf. simpl.
  rewrite keys_put_all. now apply wf_open.
Qed.

Lemma install_has_current cs :
  CS.has CACHE_NAME (storage_after (install h cs)) = true.
Proof.
  rewrite install_run. unfold storage_after. simpl.
  now rewrite has_put_all, has_open.
Qed.

End InstallContent.

Section InstallEntries.

Context (h : Host).
Implicit Types (cs : CacheStorage) (p : string).

Lemma request_of_path_inj p p' :
  request_of_path h p = request_of_path h p' -> p = p'.
Proof. unfold request_of_path. now intros [= ->]. Qed.

(** Where an entry of an install comes from. *)
Lemma installed_entry_origin (q : Request) (r : Response) :
  (q, r) ∈ installed_entries h ->
  exists p, q = request_of_path h p /\
            (p ∈ CORE_ASSETS \/ optional_entry h p = Some (q, r)).
Proof.
  unfold installed_entries.
  destruct (core_responses h) as [l |] eqn:Hl; [| intros H; inversion H].
  destruct (storage_accepts_all h l); [| intros H; inversion H].
  intros Hin. apply elem_of_app in Hin as [Hin | Hin].
  - unfold core_responses in Hl. apply addAll_responses_spec in Hl as [-> _].
    apply list_elem_of_fmap in Hin as (p & Heq & Hp).
    inversion Heq; subst. exists p. split; [reflexivity | now left].
  - apply list_elem_of_omap in Hin as (p & Hp & Hentry). exists p.
    split; [| now right]. unfold optional_entry in Hentry.
    destruct (network h (request_of_path h p)) as [r' |]; [| discriminate].
    destruct (ok r' && storage_accepts h _ r'); [| discriminate].
    now inversion Hentry.
Qed.

Lemma optional_entry_installed l p (e : Request * Response) :
  core_responses h = Some l -> storage_accepts_all h l = true ->
  p ∈ OPTIONAL_ASSETS -> optional_entry h p = Some e ->
  e ∈ installed_entries h.
Proof.
  intros Hl Hacc Hp He. unfold installed_entries. rewrite Hl, Hacc.
  apply elem_of_app. right. apply list_elem_of_omap. now exists p.
Qed.

Lemma core_optional_disjoint p : p ∈ CORE_ASSETS -> p ∈ OPTIONAL_ASSETS -> False.
Proof.
  intros Hc Ho. unfold CORE_ASSETS, OPTIONAL_ASSETS in *.
  repeat (apply elem_of_cons in Ho as [-> | Ho];
          [repeat (apply elem_of_cons in Hc as [Hc | Hc]; [discriminate |]);
           inversion Hc |]).
  inversion Ho.
Qed.

End InstallEntries.

(** X1. When every core asset is served with an ok status and accepted by
    the storage layer, the install fulfils, asks to skip the waiting period,
    and leaves in the current cache, under the URL of every core asset, the
    response the network gave. Whatever happens to an optional asset does
    not matter to this: an optional asset served and accepted is stored as
    well, one that is not leaves the entry the current cache held before. *)
Theorem install_stores_served_assets (h : Host) (cs : CacheStorage) :
  Forall (core_asset_served h) CORE_ASSETS ->
  outcome (install h cs) = Fulfilled tt /\
  existsb is_skipWaiting (events (install h cs)) = true /\
  (forall p : string, p ∈ CORE_ASSETS ->
     cache_content CACHE_NAME (storage_after (install h cs))
       !! href (url (request_of_path h p))
     = network h (request_of_path h p)) /\
  (forall p : string, p ∈ OPTIONAL_ASSETS ->
     cache_content CACHE_NAME (storage_after (install h cs))
       !! href (url (request_of_path h p))
     = match optional_entry h p with
       | Some qr => Some qr.2
       | None => cache_content CACHE_NAME cs !! href (url (request_of_path h p))
       end).
Proof.
  intros Hserved.
  destruct (core_responses_served h Hserved) as (l & Hl & Hacc & Hcore).
  rewrite install_content. rewrite install_run.
  unfold outcome, events. cbn [fst snd].
  split; [reflexivity |]. split.
  - unfold install_events. rewrite Hl, Hacc. apply existsb_exists.
    exists EvSkipWaiting. split; [| reflexivity].
    right. apply in_or_app. right. apply in_or_app. right. right.
    apply in_or_app. right. now left.
  - split.
    + intros p Hp. destruct (Hcore p Hp) as (r & Hn & Hin). rewrite Hn.
      apply insert_all_lookup.
      * unfold installed_entries. rewrite Hl, Hacc. apply elem_of_app. now left.
      * intros q' r' Hin' Hk.
        apply (installed_entries_functional h (request_of_path h p) q' r r');
          [| exact Hin' | exact Hk].
        unfold installed_entries. rewrite Hl, Hacc. apply elem_of_app. now left.
    + intros p Hp. destruct (optional_entry h p) as [[q r] |] eqn:He.
      * assert (Hq : q = request_of_path h p).
        { unfold optional_entry in He.
          destruct (network h (request_of_path h p)) as [r' |]; [| discriminate].
          destruct (ok r' && storage_accepts h _ r'); [| discriminate].
          now inversion He. }
        subst q. pose proof (optional_entry_installed h l p _ Hl Hacc Hp He) as Hin.
        apply insert_all_lookup; [exact Hin |].
        intros q' r' Hin' Hk.
        now apply (installed_entries_functional h (request_of_path h p) q' r r').
      * apply insert_all_lookup_other. intros q r Hin Hk.
        destruct (installed_entry_origin h q r Hin) as (p' & -> & Horigin).
        apply href_request_of_path_inj in Hk. subst p'.
        destruct Horigin as [Hc | Ho]; [| congruence].
        exact (core_optional_disjoint p Hc Hp).
Qed.

Lemma install_stores_served_assets_witness :
  outcome (install core_only_host example_storage) = Fulfilled tt /\
  existsb is_skipWaiting (events (install core_only_host example_storage)) = true /\
  (forall p : string, p ∈ CORE_ASSETS ->
     cache_content CACHE_NAME (storage_after (install core_only_host example_storage))
       !! href (url (request_of_path core_only_host p))
     = network core_only_host (request_of_path core_only_host p)) /\
  (forall p : string, p ∈ OPTIONAL_ASSETS ->
     cache_content CACHE_NAME (storage_after (install core_only_host example_storage))
       !! href (url (request_of_path core_only_host p))
     = match optional_entry core_only_host p with
       | Some qr => Some qr.2
       | None => cache_content CACHE_NAME example_storage
                   !! href (url (request_of_path core_only_host p))
       end).
Proof.
  apply (install_stores_served_assets core_only_host example_storage).
  repeat constructor; eexists; repeat split; vm_compute; reflexivity.
Defined.

(** X2. When a core asset is not served, is served with a status that is
    not ok, or is refused by the storage layer, the install stores nothing:
    it leaves the storage with the current cache created and otherwise as it
    was, fetches the core assets and nothing else, and does not ask to skip
    the waiting period. *)
Theorem install_core_failure_stores_nothing (h : Host) (cs : CacheStorage) :
  Exists (core_asset_fails h) CORE_ASSETS ->
  install h cs
  = (Fulfilled tt, CS.open CACHE_NAME cs,
     EvCacheOpen CACHE_NAME ::
     map (fun p => EvFetch (request_of_path h p)) CORE_ASSETS) /\
  cache_content CACHE_NAME (storage_after (install h cs))
    = cache_content CACHE_NAME cs /\
  existsb is_skipWaiting (events (install h cs)) = false.
Proof.
  intros Hex. destruct (core_fails_no_entries h Hex) as [He Hev].
  rewrite install_content, install_run, He, Hev.
  split; [reflexivity |]. split; [reflexivity |].
  unfold events. cbn [snd existsb is_skipWaiting].
  apply not_true_is_false. intros Hs. apply existsb_exists in Hs as (e & Hin & He').
  apply in_map_iff in Hin as (p & <- & _). discriminate.
Qed.

Lemma install_core_failure_stores_nothing_witness :
  install quota_host example_storage
  = (Fulfilled tt, CS.open CACHE_NAME example_storage,
     EvCacheOpen CACHE_NAME ::
     map (fun p => EvFetch (request_of_path quota_host p)) CORE_ASSETS) /\
  cache_content CACHE_NAME (storage_after (install quota_host example_storage))
    = cache_content CACHE_NAME example_storage /\
  existsb is_skipWaiting (events (install quota_host example_storage)) = false.
Proof.
  apply (install_core_failure_stores_nothing quota_host example_storage).
  apply Exists_exists. exists "/style.css".
  split; [repeat constructor | vm_compute; right; reflexivity].
Defined.

(** X3. Installing again over the storage that an install left, with the
    network and the storage layer answering alike, leaves the same storage,
    performs the same events and settles alike: the second run writes the
    same responses under the same URLs. *)
Theorem install_idempotent (h : Host) (cs : CacheStorage) :
  install h (storage_after (install h cs)) = install h cs.
Proof.
  rewrite !install_run. unfold storage_after. cbn [fst snd].
  f_equal. f_equal.
  rewrite (open_existing CACHE_NAME) by (now rewrite has_put_all, has_open).
  rewrite !put_all_alter, alter_alter. apply alter_ext. intros m.
  apply insert_all_twice. intros q r q' r'.
  apply installed_entries_functional.
Qed.

(** X4. After an install followed by an activation the storage holds the
    current cache and no other, whatever caches it held before and whether
    or not the install stored anything; the activation leaves the content
    of the current cache as the install left it. *)
Theorem install_then_activate (h : Host) (cs : CacheStorage) :
  CS.wf cs ->
  CS.keys (storage_after (activate (storage_after (install h cs)))) = [CACHE_NAME] /\
  cache_content CACHE_NAME (storage_after (activate (storage_after (install h cs))))
    = insert_all (installed_entries h) (cache_content CACHE_NAME cs).
Proof.
  intros Hwf. split.
  - rewrite activate_run. unfold storage_after at 1. cbn [fst snd].
    rewrite keys_filter_current by (now apply install_wf).
    now rewrite install_has_current.
  - rewrite <- install_content, activate_run.
    unfold storage_after at 1. unfold cache_content. cbn [fst snd].
    now rewrite lookup_filter_current.
Qed.

Lemma install_then_activate_witness :
  CS.keys (storage_after (activate (storage_after (install offline_host example_storage))))
    = [CACHE_NAME] /\
  cache_content CACHE_NAME
    (storage_after (activate (storage_after (install offline_host example_storage))))
    = insert_all (installed_entries offline_host)
        (cache_content CACHE_NAME example_storage).
Proof.
  apply (install_then_activate offline_host example_storage).
  unfold CS.wf. apply (bool_decide_unpack _). vm_compute. exact I.
Defined.

(** ** Lookups across the caches *)

Section Match.

Implicit Types (cs : CacheStorage) (key name : string) (r : Response).

Lemma match_app key cs1 cs2 :
  CS.match_ key (cs1 ++ cs2)
  = match CS.match_ key cs1 with
    | Some r => Some r
    | None => CS.match_ key cs2
    end.
Proof.
  induction cs1 as [|[n c] cs1 IH]; [reflexivity |].
  simpl. destruct (c !! key); [reflexivity | exact IH].
Qed.

Lemma match_open key name cs : CS.match_ key (CS.open name cs) = CS.match_ key cs.
Proof.
  unfold CS.open. destruct (CS.has name cs); [reflexivity |].
  rewrite match_app. destruct (CS.match_ key cs); [reflexivity |].
  simpl. now rewrite lookup_empty.
Qed.

Lemma cached_for_open (request : Request) name cs :
  cached_for request (CS.open name cs) = cached_for request cs.
Proof. unfold cached_for. now rewrite match_open. Qed.

Lemma match_delete_None key name cs :
  CS.match_ key cs = None -> CS.match_ key (CS.delete name cs) = None.
Proof.
  unfold CS.delete. induction cs as [|[n c] cs IH]; intros H; [reflexivity |].
  simpl in H. destruct (c !! key) eqn:E; [discriminate |].
  rewrite filter_cons. destruct (decide ((n, c).1 ≠ name)); [| now apply IH].
  simpl. rewrite E. now apply IH.
Qed.

(** A response written into the current cache is what the caches answer for
    its key, unless a cache of another name holds the key. *)
Lemma match_put_open key r cs :
  CS.match_ key (CS.delete CACHE_NAME cs) = None ->
  CS.match_ key (CS.put CACHE_NAME key r (CS.open CACHE_NAME cs)) = Some r.
Proof.
  unfold CS.delete. induction cs as [|[n c] cs IH]; intros H.
  - cbn. now rewrite lookup_insert_eq.
  - destruct (decide (n = CACHE_NAME)) as [-> | Hne].
    + rewrite open_existing by apply has_cons_eq.
      cbn [CS.put]. rewrite String.eqb_refl. cbn [CS.match_].
      now rewrite lookup_insert_eq.
    + rewrite filter_cons_True in H by exact Hne. cbn [CS.match_] in H.
      destruct (c !! key) eqn:E; [discriminate |].
      assert (Hopen : CS.open CACHE_NAME ((n, c) :: cs)
                      = (n, c) :: CS.open CACHE_NAME cs).
      { unfold CS.open. rewrite (has_cons_ne _ _ _ _ Hne).
        now destruct (CS.has CACHE_NAME cs). }
      rewrite Hopen. cbn [CS.put]. apply String.eqb_neq in Hne. rewrite Hne.
      cbn [CS.match_]. rewrite E. now apply IH.
Qed.

(** A cache of another name that comes first and holds the key keeps
    answering for it. *)
Lemma match_shadowed key name (m : Cache) r r0 cs :
  name ≠ CACHE_NAME -> m !! key = Some r0 ->
  CS.match_ key (CS.put CACHE_NAME key r (CS.open CACHE_NAME ((name, m) :: cs)))
  = Some r0.
Proof.
  intros Hne Hm.
  assert (Hopen : CS.open CACHE_NAME ((name, m) :: cs)
                  = (name, m) :: CS.open CACHE_NAME cs).
  { unfold CS.open. rewrite (has_cons_ne _ _ _ _ Hne).
    now destruct (CS.has CACHE_NAME cs). }
  rewrite Hopen. cbn [CS.put]. apply String.eqb_neq in Hne. rewrite Hne.
  cbn [CS.match_]. now rewrite Hm.
Qed.

Lemma content_put_open key r cs :
  cache_content CACHE_NAME (CS.put CACHE_NAME key r (CS.open CACHE_NAME cs)) !! key
  = Some r.
Proof.
  unfold cache_content. rewrite put_alter, lookup_alter_cache, lookup_open.
  simpl. apply lookup_insert_eq.
Qed.

End Match.

(** X5. Activating again changes nothing: over the storage an activation
    left, a second activation deletes no cache, leaves the storage as it
    is, and only claims the clients. *)
Theorem activate_idempotent (cs : CacheStorage) :
  activate (storage_after (activate cs))
  = (Fulfilled tt, storage_after (activate cs), [EvClientsClaim]).
Proof.
  rewrite !activate_run. unfold storage_after. cbn [fst snd].
  f_equal; [f_equal |].
  - rewrite list_filter_filter. apply list_filter_iff. intros e. tauto.
  - replace (filter (fun n => n ≠ CACHE_NAME)
               (CS.keys (filter (fun e => e.1 = CACHE_NAME) cs))) with (@nil string);
      [reflexivity |].
    symmetry. unfold CS.keys. induction cs as [|[n c] cs IH]; [reflexivity |].
    rewrite filter_cons. destruct (decide ((n, c).1 = CACHE_NAME)) as [He | He];
      [| exact IH].
    rewrite fmap_cons, filter_cons_False; [exact IH |]. simpl in *. tauto.
Qed.

(** X6. A static asset that no cache holds, served with an ok status and
    accepted by the storage layer, is handed to the page as the network
    gave it and stored so that the caches answer for it from then on: the
    next request for it is served from the cache, without any event,
    whatever the network does by then. *)
Theorem handleStaticAsset_populates
    (h : Host) (request : Request) (cs : CacheStorage) (r : Response) :
  method request = "GET" ->
  cached_for request cs = None ->
  network h request = Some r ->
  ok r = true ->
  storage_accepts h (href (url request)) r = true ->
  outcome (handleStaticAsset h request cs) = Fulfilled r /\
  cached_for request (storage_after (handleStaticAsset h request cs)) = Some r /\
  (forall h' : Host,
     handleStaticAsset h' request (storage_after (handleStaticAsset h request cs))
     = (Fulfilled r, storage_after (handleStaticAsset h request cs), [])).
Proof.
  intros Hget Hmiss Hnet Hok Hacc.
  assert (Hrun : handleStaticAsset h request cs
                 = (Fulfilled r,
                    CS.put CACHE_NAME (href (url request)) r (CS.open CACHE_NAME cs),
                    [EvFetch request; EvCacheOpen CACHE_NAME;
                     EvCachePut CACHE_NAME (href (url request))])).
  { rewrite handleStaticAsset_run, Hmiss. cbv zeta.
    now rewrite Hnet, Hok, Hget, Hacc. }
  assert (Hhit : cached_for request
                   (CS.put CACHE_NAME (href (url request)) r (CS.open CACHE_NAME cs))
                 = Some r).
  { unfold cached_for in *. rewrite Hget in *. rewrite String.eqb_refl in *.
    apply match_put_open. now apply match_delete_None. }
  rewrite Hrun. unfold outcome, storage_after. cbn [fst snd].
  split; [reflexivity |]. split; [exact Hhit |].
  intros h'. now apply handleStaticAsset_hit.
Qed.

Lemma handleStaticAsset_populates_witness :
  outcome (handleStaticAsset online_host (get "/script.js") example_storage)
    = Fulfilled (ok_response "/script.js") /\
  cached_for (get "/script.js")
    (storage_after (handleStaticAsset online_host (get "/script.js") example_storage))
    = Some (ok_response "/script.js") /\
  (forall h' : Host,
     handleStaticAsset h' (get "/script.js")
       (storage_after (handleStaticAsset online_host (get "/script.js") example_storage))
     = (Fulfilled (ok_response "/script.js"),
        storage_after (handleStaticAsset online_host (get "/script.js") example_storage),
        [])).
Proof.
  apply (handleStaticAsset_populates online_host (get "/script.js")
           example_storage (ok_response "/script.js")); reflexivity.
Defined.

(** X7. A GET for a page that the network serves with an ok status and the
    storage layer accepts is answered from the network whatever the caches
    held, and stored in the current cache under its URL; when, moreover, no
    cache of another name holds that URL, the same request made while the
    network is down is answered with the stored response. *)
Theorem handleHTMLPage_online_then_offline
    (h : Host) (request : Request) (cs : CacheStorage) (r : Response) :
  method request = "GET" ->
  network h request = Some r ->
  ok r = true ->
  storage_accepts h (href (url request)) r = true ->
  outcome (handleHTMLPage h request cs) = Fulfilled r /\
  cache_content CACHE_NAME (storage_after (handleHTMLPage h request cs))
    !! href (url request) = Some r /\
  (CS.match_ (href (url request)) (CS.delete CACHE_NAME cs) = None ->
   handleHTMLPage (without_network h) request
     (storage_after (handleHTMLPage h request cs))
   = (Fulfilled r, storage_after (handleHTMLPage h request cs),
      [EvFetch request])).
Proof.
  intros Hget Hnet Hok Hacc.
  assert (Hrun : handleHTMLPage h request cs
                 = (Fulfilled r,
                    CS.put CACHE_NAME (href (url request)) r (CS.open CACHE_NAME cs),
                    [EvFetch request; EvCacheOpen CACHE_NAME;
                     EvCachePut CACHE_NAME (href (url request))])).
  { rewrite handleHTMLPage_run, Hnet, Hok. cbv zeta. now rewrite Hget, Hacc. }
  rewrite Hrun. unfold outcome, storage_after. cbn [fst snd].
  split; [reflexivity |]. split; [apply content_put_open |].
  intros Hother. rewrite handleHTMLPage_no_ok by (now left).
  unfold html_fallback, cached_for. rewrite Hget, String.eqb_refl.
  now rewrite (match_put_open _ r cs Hother).
Qed.

Lemma handleHTMLPage_online_then_offline_witness :
  outcome (handleHTMLPage online_host (get "/about.html") example_storage)
    = Fulfilled (ok_response "/about.html") /\
  cache_content CACHE_NAME
    (storage_after (handleHTMLPage online_host (get "/about.html") example_storage))
    !! href (url (get "/about.html")) = Some (ok_response "/about.html") /\
  handleHTMLPage (without_network online_host) (get "/about.html")
    (storage_after (handleHTMLPage online_host (get "/about.html") example_storage))
  = (Fulfilled (ok_response "/about.html"),
     storage_after (handleHTMLPage online_host (get "/about.html") example_storage),
     [EvFetch (get "/about.html")]).
Proof.
  destruct (handleHTMLPage_online_then_offline online_host (get "/about.html")
              example_storage (ok_response "/about.html")
              eq_refl eq_refl eq_refl eq_refl) as (H1 & H2 & H3).
  split; [exact H1 |]. split; [exact H2 |]. apply H3. reflexivity.
Defined.

(** X8. [caches.match] searches every cache in creation order: while a
    cache of another name that was created first holds a response for the
    URL, that response is what the fallback of the HTML handler serves when
    the network is down, even after a fresh response was stored in the
    current cache. *)
Theorem stale_cache_shadows_current
    (h : Host) (request : Request) (name : string) (m : Cache)
    (rest : CacheStorage) (r r0 : Response) :
  name ≠ CACHE_NAME ->
  m !! href (url request) = Some r0 ->
  method request = "GET" ->
  network h request = Some r ->
  ok r = true ->
  storage_accepts h (href (url request)) r = true ->
  outcome (handleHTMLPage h request ((name, m) :: rest)) = Fulfilled r /\
  cache_content CACHE_NAME
    (storage_after (handleHTMLPage h request ((name, m) :: rest)))
    !! href (url request) = Some r /\
  outcome (handleHTMLPage (without_network h) request
             (storage_after (handleHTMLPage h request ((name, m) :: rest))))
  = Fulfilled r0.
Proof.
  intros Hne Hm Hget Hnet Hok Hacc.
  assert (Hrun : handleHTMLPage h request ((name, m) :: rest)
                 = (Fulfilled r,
                    CS.put CACHE_NAME (href (url request)) r
                      (CS.open CACHE_NAME ((name, m) :: rest)),
                    [EvFetch request; EvCacheOpen CACHE_NAME;
                     EvCachePut CACHE_NAME (href (url request))])).
  { rewrite handleHTMLPage_run, Hnet, Hok. cbv zeta. now rewrite Hget, Hacc. }
  rewrite Hrun. unfold outcome at 1, storage_after. cbn [fst snd].
  split; [reflexivity |]. split; [apply content_put_open |].
  rewrite handleHTMLPage_no_ok by (now left).
  unfold outcome, html_fallback, cached_for. cbn [fst snd].
  rewrite Hget, String.eqb_refl.
  now rewrite (match_shadowed _ name m r r0 rest Hne Hm).
Qed.

Lemma stale_cache_shadows_current_witness :
  outcome (handleHTMLPage online_host (get "/") shadowed_storage)
    = Fulfilled (ok_response "/") /\
  cache_content CACHE_NAME
    (storage_after (handleHTMLPage online_host (get "/") shadowed_storage))
    !! href (url (get "/")) = Some (ok_response "/") /\
  outcome (handleHTMLPage (without_network online_host) (get "/")
             (storage_after (handleHTMLPage online_host (get "/") shadowed_storage)))
  = Fulfilled (ok_response "<html>old</html>").
Proof.
  apply (stale_cache_shadows_current online_host (get "/") "spiritual-count-v0"
           {[ "https://count.example/" := ok_response "<html>old</html>" ]}
           [(CACHE_NAME, ∅)] (ok_response "/") (ok_response "<html>old</html>"));
    try reflexivity.
  discriminate.
Defined.

(** X9. When the network fails, the cache-first handler (which asked it
    because no cache held the request) answers 503 "Asset not available
    offline", and the generic handler answers with the cached response of
    the request when there is one and 503 "Request failed and no cached
    version available" otherwise; both promises fulfil and the storage is
    left as it was. *)
Theorem network_failure_answers
    (h : Host) (request : Request) (cs : CacheStorage) :
  network h request = None ->
  (cached_for request cs = None ->
   handleStaticAsset h request cs
   = (Fulfilled asset_unavailable, cs, [EvFetch request])) /\
  handleNetworkFirst h request cs
  = (Fulfilled (default request_unavailable (cached_for request cs)), cs,
     [EvFetch request]) /\
  status asset_unavailable = 503%Z /\ status request_unavailable = 503%Z /\
  ok asset_unavailable = false /\ ok request_unavailable = false.
Proof.
  intros Hnet. split; [| split].
  - intros Hmiss. rewrite handleStaticAsset_run, Hmiss. cbv zeta.
    now rewrite Hnet.
  - rewrite handleNetworkFirst_run. cbv zeta. rewrite Hnet.
    now destruct (cached_for request cs).
  - repeat split.
Qed.

Lemma network_failure_answers_witness :
  (cached_for (get "/app.js") example_storage = None ->
   handleStaticAsset offline_host (get "/app.js") example_storage
   = (Fulfilled asset_unavailable, example_storage, [EvFetch (get "/app.js")])) /\
  handleNetworkFirst offline_host (get "/app.js") example_storage
  = (Fulfilled (default request_unavailable
                  (cached_for (get "/app.js") example_storage)),
     example_storage, [EvFetch (get "/app.js")]) /\
  status asset_unavailable = 503%Z /\ status request_unavailable = 503%Z /\
  ok asset_unavailable = false /\ ok request_unavailable = false.
Proof.
  apply (network_failure_answers offline_host (get "/app.js") example_storage).
  reflexivity.
Defined.

(** X10. The write is part of the guarded block: when the storage layer
    refuses the ok response to a GET, the page does not get that response.
    The cache-first handler (on a miss) answers 503, the generic handler the
    cached response or 503, the HTML handler its fallback chain. The HTML
    and the generic handler, and the cache-first handler on a miss, leave
    the storage with the current cache created and nothing written: the
    content of the current cache and the caches of other names are as they
    were. *)
Theorem storage_refusal_hides_response
    (h : Host) (request : Request) (cs : CacheStorage) (r : Response) :
  method request = "GET" ->
  network h request = Some r ->
  ok r = true ->
  storage_accepts h (href (url request)) r = false ->
  (cached_for request cs = None ->
   outcome (handleStaticAsset h request cs) = Fulfilled asset_unavailable) /\
  outcome (handleNetworkFirst h request cs)
    = Fulfilled (default request_unavailable (cached_for request cs)) /\
  outcome (handleHTMLPage h request cs) = Fulfilled (html_fallback h request cs) /\
  storage_after (handleHTMLPage h request cs) = CS.open CACHE_NAME cs /\
  storage_after (handleNetworkFirst h request cs) = CS.open CACHE_NAME cs /\
  (cached_for request cs = None ->
   storage_after (handleStaticAsset h request cs) = CS.open CACHE_NAME cs) /\
  cache_content CACHE_NAME (CS.open CACHE_NAME cs) = cache_content CACHE_NAME cs /\
  CS.delete CACHE_NAME (CS.open CACHE_NAME cs) = CS.delete CACHE_NAME cs.
Proof.
  intros Hget Hnet Hok Hacc.
  assert (Hfb : html_fallback h request (CS.open CACHE_NAME cs)
                = html_fallback h request cs).
  { unfold html_fallback. now rewrite !cached_for_open. }
  split; [| split; [| split; [| split; [| split; [| split; [| split]]]]]].
  - intros Hmiss. rewrite handleStaticAsset_run, Hmiss. cbv zeta.
    rewrite Hnet, Hok, Hget, Hacc, cached_for_open, Hmiss. reflexivity.
  - rewrite handleNetworkFirst_run. cbv zeta.
    rewrite Hnet, Hok, Hget, Hacc, cached_for_open. cbn.
    now destruct (cached_for request cs).
  - rewrite handleHTMLPage_run, Hnet, Hok. cbv zeta.
    rewrite Hget, Hacc. cbn. now rewrite Hfb.
  - rewrite handleHTMLPage_run, Hnet, Hok. cbv zeta. now rewrite Hget, Hacc.
  - rewrite handleNetworkFirst_run. cbv zeta. now rewrite Hnet, Hok, Hget, Hacc.
  - intros Hmiss. rewrite handleStaticAsset_run, Hmiss. cbv zeta.
    now rewrite Hnet, Hok, Hget, Hacc.
  - unfold cache_content at 1. now rewrite lookup_open.
  - apply delete_open.
Qed.

Lemma storage_refusal_hides_response_witness :
  ((cached_for (get "/app.js") example_storage = None ->
    outcome (handleStaticAsset full_host (get "/app.js") example_storage)
      = Fulfilled asset_unavailable) /\
   outcome (handleNetworkFirst full_host (get "/app.js") example_storage)
     = Fulfilled (default request_unavailable
                    (cached_for (get "/app.js") example_storage)) /\
   outcome (handleHTMLPage full_host (get "/app.js") example_storage)
     = Fulfilled (html_fallback full_host (get "/app.js") example_storage) /\
   storage_after (handleHTMLPage full_host (get "/app.js") example_storage)
     = CS.open CACHE_NAME example_storage /\
   storage_after (handleNetworkFirst full_host (get "/app.js") example_storage)
     = CS.open CACHE_NAME example_storage /\
   (cached_for (get "/app.js") example_storage = None ->
    storage_after (handleStaticAsset full_host (get "/app.js") example_storage)
      = CS.open CACHE_NAME example_storage) /\
   cache_content CACHE_NAME (CS.open CACHE_NAME example_storage)
     = cache_content CACHE_NAME example_storage /\
   CS.delete CACHE_NAME (CS.open CACHE_NAME example_storage)
     = CS.delete CACHE_NAME example_storage) /\
  ((cached_for (get "/style.css") example_storage = None ->
    outcome (handleStaticAsset full_host (get "/style.css") example_storage)
      = Fulfilled asset_unavailable) /\
   outcome (handleNetworkFirst full_host (get "/style.css") example_storage)
     = Fulfilled (default request_unavailable
                    (cached_for (get "/style.css") example_storage)) /\
   outcome (handleHTMLPage full_host (get "/style.css") example_storage)
     = Fulfilled (html_fallback full_host (get "/style.css") example_storage) /\
   storage_after (handleHTMLPage full_host (get "/style.css") example_storage)
     = CS.open CACHE_NAME example_storage /\
   storage_after (handleNetworkFirst full_host (get "/style.css") example_storage)
     = CS.open CACHE_NAME example_storage /\
   (cached_for (get "/style.css") example_storage = None ->
    storage_after (handleStaticAsset full_host (get "/style.css") example_storage)
      = CS.open CACHE_NAME example_storage) /\
   cache_content CACHE_NAME (CS.open CACHE_NAME example_storage)
     = cache_content CACHE_NAME example_storage /\
   CS.delete CACHE_NAME (CS.open CACHE_NAME example_storage)
     = CS.delete CACHE_NAME example_storage).
Proof.
  split.
  - apply (storage_refusal_hides_response full_host (get "/app.js")
             example_storage (ok_response "/app.js")); reflexivity.
  - apply (storage_refusal_hides_response full_host (get "/style.css")
             example_storage (ok_response "/style.css")); reflexivity.
Defined.

(** X11. Whatever the network, the caches and the storage layer do, each of
    the three handlers fulfils its promise with a response, contacts the
    network at most once and only for the request it was given, and neither
    deletes a cache, nor claims clients, nor skips waiting, nor posts a
    message. *)
Theorem strategy_always_answers
    (h : Host) (c : RoutingCategory) (request : Request) (cs : CacheStorage) :
  (exists response : Response,
     outcome (strategy h c request cs) = Fulfilled response) /\
  length (List.filter is_fetch (events (strategy h c request cs))) <= 1 /\
  Forall (fun e => e = EvFetch request \/
                   e = EvCacheOpen CACHE_NAME \/
                   e = EvCachePut CACHE_NAME (href (url request)))
    (events (strategy h c request cs)).
Proof.
  split; [apply strategy_answers |].
  destruct (strategy_shape h c request cs) as [[_ He] | (r & _ & He)];
    cbv zeta in He.
  - destruct He as [-> | ->]; split; simpl; try lia.
    + constructor.
    + constructor; [now left | constructor].
  - rewrite He. split; [simpl; lia |].
    constructor; [now left |]. constructor; [right; now left |].
    constructor; [right; now right | constructor].
Qed.

(** X12. The fetch listener leaves a request to the browser exactly when it
    is not a GET or goes to another origin; every other request is answered
    by the handler of its category. *)
Theorem onFetch_passes_through_iff (h : Host) (request : Request) :
  (onFetch h request = None <->
   method request ≠ "GET" \/ origin (url request) ≠ self_origin h) /\
  (onFetch h request <> None <->
   onFetch h request
   = Some (strategy h (classify (pathname (url request))) request)).
Proof.
  unfold onFetch, route.
  destruct (String.eqb (method request) "GET") eqn:Hm; simpl.
  - apply String.eqb_eq in Hm.
    destruct (String.eqb (origin (url request)) (self_origin h)) eqn:Ho; simpl.
    + apply String.eqb_eq in Ho. split; split.
      * discriminate.
      * intros [? | ?]; congruence.
      * reflexivity.
      * discriminate.
    + apply String.eqb_neq in Ho. split; split.
      * intros _. now right.
      * reflexivity.
      * intros Hn. now contradiction Hn.
      * discriminate.
  - apply String.eqb_neq in Hm. split; split.
    + intros _. now left.
    + reflexivity.
    + intros Hn. now contradiction Hn.
    + discriminate.
Qed.

Section MessageEffects.

Implicit Types (event : MessageEvent) (cs : CacheStorage).

Lemma known_type_guard event (t : string) :
  strict_eq_string (get_type (data event)) t = true -> t ≠ "" ->
  truthy (data event) && truthy (get_type (data event)) = true.
Proof.
  intros Ht Hne. destruct (get_type (data event)) as [| | | | |s|] eqn:E;
    try discriminate.
  simpl in Ht. apply String.eqb_eq in Ht. subst s. rewrite <- E.
  now apply (get_type_string_truthy event t).
Qed.

Lemma has_filter_current cs :
  CS.has CACHE_NAME (filter (fun e => e.1 = CACHE_NAME) cs) = CS.has CACHE_NAME cs.
Proof. unfold CS.has. now rewrite lookup_filter_current. Qed.

End MessageEffects.

(** The runs of the message listener, case by case. *)
Lemma onMessage_cases (event : MessageEvent) (cs : CacheStorage) :
  storage_after (onMessage event cs) = cs /\
  Forall (fun e => e = EvSkipWaiting \/ is_postMessage e = true)
    (events (onMessage event cs)) /\
  existsb is_skipWaiting (events (onMessage event cs))
    = strict_eq_string (get_type (data event)) "SKIP_WAITING" /\
  (ports event = [] -> replies (events (onMessage event cs)) = []) /\
  (ports event <> [] -> outcome (onMessage event cs) = Fulfilled tt).
Proof.
  unfold onMessage.
  destruct (strict_eq_string (get_type (data event)) "GET_VERSION") eqn:Hv.
  { rewrite (known_type_guard event _ Hv) by discriminate.
    destruct (get_type (data event)); try discriminate. simpl in Hv.
    apply String.eqb_eq in Hv. subst s. simpl.
    unfold postMessage. destruct (ports event); simpl;
      repeat split; try reflexivity; try tauto; try congruence;
      repeat constructor; now right. }
  destruct (strict_eq_string (get_type (data event)) "SKIP_WAITING") eqn:Hs.
  { rewrite (known_type_guard event _ Hs) by discriminate.
    unfold skipWaiting, postMessage, emit, throw, mbind, M_bind.
    destruct (ports event); simpl;
      repeat split; try reflexivity; try tauto; try congruence;
      repeat constructor; try (now left); now right. }
  destruct (strict_eq_string (get_type (data event)) "CACHE_STATUS") eqn:Hc.
  { rewrite (known_type_guard event _ Hc) by discriminate.
    unfold caches_has, postMessage, emit, throw, mbind, M_bind.
    destruct (ports event); simpl;
      repeat split; try reflexivity; try tauto; try congruence;
      repeat constructor; now right. }
  destruct (truthy (data event) && truthy (get_type (data event))); simpl;
    repeat split; try reflexivity; constructor.
Qed.


(** X13. A message never touches the caches or the network: the storage is
    left as it was and the only events are a [skipWaiting] and a reply. The
    worker skips waiting exactly when the type is "SKIP_WAITING", also when
    no reply port came with the message; in that case, and for the two
    other known types, the listener throws instead of replying, and for a
    message with a port it never throws. *)
Theorem onMessage_effects (event : MessageEvent) (cs : CacheStorage) :
  storage_after (onMessage event cs) = cs /\
  Forall (fun e => e = EvSkipWaiting \/ is_postMessage e = true)
    (events (onMessage event cs)) /\
  existsb is_skipWaiting (events (onMessage event cs))
    = strict_eq_string (get_type (data event)) "SKIP_WAITING" /\
  (ports event = [] -> replies (events (onMessage event cs)) = []) /\
  (ports event <> [] -> outcome (onMessage event cs) = Fulfilled tt).
Proof. apply onMessage_cases. Qed.

(** X14. A "CACHE_STATUS" message that comes with a port is answered with
    one reply naming the current cache and telling whether it exists. After
    an install the answer is that it exists, whatever the install could
    fetch or store; an activation does not change the answer. *)
Theorem cache_status_after_lifecycle
    (h : Host) (event : MessageEvent) (cs : CacheStorage)
    (port : nat) (rest : list nat) :
  get_type (data event) = JsString "CACHE_STATUS" ->
  ports event = port :: rest ->
  onMessage event cs
  = (Fulfilled tt, cs,
     [EvPostMessage port (MsgCacheStatus (CS.has CACHE_NAME cs) CACHE_NAME)]) /\
  replies (events (onMessage event (storage_after (install h cs))))
  = [MsgCacheStatus true CACHE_NAME] /\
  replies (events (onMessage event (storage_after (activate cs))))
  = replies (events (onMessage event cs)).
Proof.
  intros Ht Hp.
  assert (Hrun : forall cs0,
            onMessage event cs0
            = (Fulfilled tt, cs0,
               [EvPostMessage port
                  (MsgCacheStatus (CS.has CACHE_NAME cs0) CACHE_NAME)])).
  { intros cs0. unfold onMessage.
    rewrite (get_type_string_truthy event "CACHE_STATUS" Ht) by discriminate.
    rewrite Ht. simpl. unfold caches_has, postMessage, mbind, M_bind.
    now rewrite Hp. }
  split; [apply Hrun |]. rewrite !Hrun. unfold events. cbn [snd replies omap].
  split.
  - now rewrite install_has_current.
  - rewrite activate_run. unfold storage_after. cbn [fst snd].
    now rewrite has_filter_current.
Qed.

Lemma cache_status_after_lifecycle_witness :
  onMessage status_request stale_storage
  = (Fulfilled tt, stale_storage,
     [EvPostMessage 3 (MsgCacheStatus (CS.has CACHE_NAME stale_storage) CACHE_NAME)]) /\
  replies (events (onMessage status_request
                     (storage_after (install offline_host stale_storage))))
  = [MsgCacheStatus true CACHE_NAME] /\
  replies (events (onMessage status_request (storage_after (activate stale_storage))))
  = replies (events (onMessage status_request stale_storage)).
Proof.
  apply (cache_status_after_lifecycle offline_host status_request stale_storage
           3%nat []); reflexivity.
Defined.

(** X15. A GET of the generic kind that the network serves with an ok
    status and the storage layer accepts is answered from the network
    whatever the caches held, and stored in the current cache under its URL;
    when, moreover, no cache of another name holds that URL, the same
    request made while the network is down is answered with the stored
    response. *)
Theorem handleNetworkFirst_online_then_offline
    (h : Host) (request : Request) (cs : CacheStorage) (r : Response) :
  method request = "GET" ->
  network h request = Some r ->
  ok r = true ->
  storage_accepts h (href (url request)) r = true ->
  outcome (handleNetworkFirst h request cs) = Fulfilled r /\
  cache_content CACHE_NAME (storage_after (handleNetworkFirst h request cs))
    !! href (url request) = Some r /\
  (CS.match_ (href (url request)) (CS.delete CACHE_NAME cs) = None ->
   handleNetworkFirst (without_network h) request
     (storage_after (handleNetworkFirst h request cs))
   = (Fulfilled r, storage_after (handleNetworkFirst h request cs),
      [EvFetch request])).
Proof.
  intros Hget Hnet Hok Hacc.
  assert (Hrun : handleNetworkFirst h request cs
                 = (Fulfilled r,
                    CS.put CACHE_NAME (href (url request)) r (CS.open CACHE_NAME cs),
                    [EvFetch request; EvCacheOpen CACHE_NAME;
                     EvCachePut CACHE_NAME (href (url request))])).
  { rewrite handleNetworkFirst_run. cbv zeta.
    now rewrite Hnet, Hok, Hget, Hacc. }
  rewrite Hrun. unfold outcome, storage_after. cbn [fst snd].
  split; [reflexivity |]. split; [apply content_put_open |].
  intros Hother.
  rewrite handleNetworkFirst_run. cbv zeta. cbn [network without_network].
  unfold cached_for. rewrite Hget, String.eqb_refl.
  now rewrite (match_put_open _ r cs Hother).
Qed.

Lemma handleNetworkFirst_online_then_offline_witness :
  outcome (handleNetworkFirst online_host (get "/api/data") example_storage)
    = Fulfilled (ok_response "/api/data") /\
  cache_content CACHE_NAME
    (storage_after (handleNetworkFirst online_host (get "/api/data") example_storage))
    !! href (url (get "/api/data")) = Some (ok_response "/api/data") /\
  handleNetworkFirst (without_network online_host) (get "/api/data")
    (storage_after (handleNetworkFirst online_host (get "/api/data") example_storage))
  = (Fulfilled (ok_response "/api/data"),
     storage_after (handleNetworkFirst online_host (get "/api/data") example_storage),
     [EvFetch (get "/api/data")]).
Proof.
  destruct (handleNetworkFirst_online_then_offline online_host (get "/api/data")
              example_storage (ok_response "/api/data")
              eq_refl eq_refl eq_refl eq_refl) as (H1 & H2 & H3).
  split; [exact H1 |]. split; [exact H2 |]. apply H3. reflexivity.
Defined.

Section Invariant.

Context (h : Host).
Implicit Types (cs : CacheStorage).

Lemma strategy_wf (c : RoutingCategory) (request : Request) cs :
  CS.wf cs -> CS.wf (storage_after (strategy h c request cs)).
Proof.
  intros Hwf.
  destruct (strategy_shape h c request cs) as [[-> _] | (r & [-> | ->] & _)].
  - exact Hwf.
  - now apply wf_open.
  - now apply wf_put, wf_open.
Qed.

Lemma delete_put_all (l : list (Request * Response)) cs :
  CS.delete CACHE_NAME (put_all l cs) = CS.delete CACHE_NAME cs.
Proof.
  unfold put_all. revert cs. induction l as [|qr l IH]; intros cs; [reflexivity |].
  simpl. now rewrite IH, delete_put.
Qed.

Lemma install_events_current :
  Forall (fun e => (written_cache e = None \/ written_cache e = Some CACHE_NAME) /\
                   e <> EvClientsClaim /\ forall n, e <> EvCacheDelete n)
    (install_events h).
Proof.
  unfold install_events. constructor; [repeat split; try discriminate; now right |].
  apply Forall_app. split.
  - apply Forall_forall. intros e He. apply list_elem_of_In, in_map_iff in He.
    destruct He as (p & <- & _). repeat split; try discriminate. now left.
  - destruct (core_responses h) as [l |]; [| constructor].
    destruct (storage_accepts_all h l); [| constructor].
    apply Forall_app. split.
    + apply Forall_forall. intros e He. apply list_elem_of_In, in_map_iff in He.
      destruct He as (qr & <- & _). repeat split; try discriminate. now right.
    + constructor; [repeat split; try discriminate; now right |].
      apply Forall_app. split; [| repeat constructor; discriminate].
      apply Forall_forall. intros e He. apply list_elem_of_In, in_flat_map in He.
      destruct He as (p & _ & He). unfold optional_events in He.
      destruct He as [<- | He]; [repeat split; try discriminate; now left |].
      destruct (network h (request_of_path h p)) as [r |]; [| inversion He].
      destruct (ok r); [| inversion He].
      destruct He as [<- | []]. repeat split; try discriminate. now right.
Qed.

Lemma filter_none {A : Type} (P : A -> Prop) `{!forall x, Decision (P x)}
    (l : list A) :
  (forall x, x ∈ l -> ~ P x) -> filter P l = [].
Proof.
  induction l as [|a l IH]; intros Hno; [reflexivity |].
  rewrite filter_cons_False by (apply Hno; now left).
  apply IH. intros x Hx. apply Hno. now right.
Qed.

(** After an activation of a storage whose cache names are unique, the
    storage is the current cache alone, when it existed. *)
Lemma filter_current_singleton cs :
  CS.wf cs -> CS.has CACHE_NAME cs = true ->
  filter (fun e => e.1 = CACHE_NAME) cs
  = [(CACHE_NAME, cache_content CACHE_NAME cs)].
Proof.
  unfold CS.wf, cache_content. induction cs as [|[n c] cs IH]; intros Hwf Hhas;
    [discriminate |].
  unfold CS.keys in Hwf. rewrite fmap_cons in Hwf.
  apply NoDup_cons in Hwf as [Hn Hwf]. simpl in Hn.
  destruct (decide (n = CACHE_NAME)) as [-> | Hne].
  - rewrite filter_cons_True by reflexivity. cbn [CS.lookup].
    rewrite String.eqb_refl. simpl. f_equal.
    apply filter_none. intros [n' c'] Hin He. simpl in He. subst n'.
    apply Hn. apply list_elem_of_fmap. now exists (CACHE_NAME, c').
  - rewrite filter_cons_False by exact Hne. cbn [CS.lookup].
    rewrite (has_cons_ne _ _ _ _ Hne) in Hhas.
    apply String.eqb_neq in Hne. rewrite Hne. now apply IH.
Qed.

End Invariant.

Section Offline.

Context (h : Host).
Implicit Types (cs : CacheStorage) (p : string).

Lemma install_core_content cs p :
  Forall (core_asset_served h) CORE_ASSETS -> p ∈ CORE_ASSETS ->
  cache_content CACHE_NAME (storage_after (install h cs))
    !! href (url (request_of_path h p))
  = network h (request_of_path h p).
Proof.
  intros Hserved Hp.
  destruct (core_responses_served h Hserved) as (l & Hl & Hacc & Hcore).
  destruct (Hcore p Hp) as (r & Hn & Hin). rewrite install_content, Hn.
  assert (Hin' : (request_of_path h p, r) ∈ installed_entries h).
  { unfold installed_entries. rewrite Hl, Hacc. apply elem_of_app. now left. }
  apply insert_all_lookup; [exact Hin' |].
  intros q' r' Hq' Hk.
  now apply (installed_entries_functional h (request_of_path h p) q' r r').
Qed.

Lemma installed_activated cs :
  CS.wf cs ->
  storage_after (activate (storage_after (install h cs)))
  = [(CACHE_NAME, cache_content CACHE_NAME (storage_after (install h cs)))].
Proof.
  intros Hwf. rewrite activate_run. unfold storage_after at 1. cbn [fst snd].
  apply filter_current_singleton; [now apply install_wf | apply install_has_current].
Qed.

End Offline.

(** X16. The operations of the worker keep the names of the caches unique:
    from a storage without two caches of one name, an install, an
    activation, each of the three handlers and the message listener leave a
    storage without two caches of one name. *)
Theorem worker_keeps_cache_names_unique (h : Host) (cs : CacheStorage) :
  CS.wf cs ->
  CS.wf (storage_after (install h cs)) /\
  CS.wf (storage_after (activate cs)) /\
  (forall (c : RoutingCategory) (request : Request),
     CS.wf (storage_after (strategy h c request cs))) /\
  (forall event : MessageEvent, CS.wf (storage_after (onMessage event cs))).
Proof.
  intros Hwf. split; [now apply install_wf |].
  split; [now apply activate_preserves_wf |]. split.
  - intros c request. now apply strategy_wf.
  - intros event. now rewrite (proj1 (onMessage_cases event cs)).
Qed.

Lemma worker_keeps_cache_names_unique_witness :
  CS.wf (storage_after (install online_host example_storage)) /\
  CS.wf (storage_after (activate example_storage)) /\
  (forall (c : RoutingCategory) (request : Request),
     CS.wf (storage_after (strategy online_host c request example_storage))) /\
  (forall event : MessageEvent,
     CS.wf (storage_after (onMessage event example_storage))).
Proof.
  apply (worker_keeps_cache_names_unique online_host example_storage).
  unfold CS.wf. apply (bool_decide_unpack _). vm_compute. exact I.
Defined.

(** X17. An install opens and writes the current cache only: the caches of
    every other name are left exactly as they were, no cache is deleted and
    no client is claimed, whatever the network and the storage layer do. *)
Theorem install_touches_current_cache_only (h : Host) (cs : CacheStorage) :
  CS.delete CACHE_NAME (storage_after (install h cs)) = CS.delete CACHE_NAME cs /\
  CS.keys (storage_after (install h cs))
    = (if CS.has CACHE_NAME cs then CS.keys cs else CS.keys cs ++ [CACHE_NAME]) /\
  Forall (fun e => (written_cache e = None \/ written_cache e = Some CACHE_NAME) /\
                   e <> EvClientsClaim /\ forall n, e <> EvCacheDelete n)
    (events (install h cs)).
Proof.
  rewrite install_run. unfold storage_after, events. cbn [fst snd].
  split; [now rewrite delete_put_all, delete_open |].
  split; [now rewrite keys_put_all, keys_open |].
  apply install_events_current.
Qed.

(** X18. After an install in which every core asset was served and stored,
    followed by an activation, every core asset is available without the
    network: the caches answer for it with the response the network gave
    at install time, the cache-first handler serves it without any event,
    and each handler serves it when the network is down, leaving the storage
    as it is. *)
Theorem core_assets_available_offline
    (h : Host) (cs : CacheStorage) (p : string) (r : Response) :
  CS.wf cs ->
  Forall (core_asset_served h) CORE_ASSETS ->
  p ∈ CORE_ASSETS ->
  network h (request_of_path h p) = Some r ->
  cached_for (request_of_path h p)
    (storage_after (activate (storage_after (install h cs)))) = Some r /\
  (forall h' : Host,
     handleStaticAsset h' (request_of_path h p)
       (storage_after (activate (storage_after (install h cs))))
     = (Fulfilled r, storage_after (activate (storage_after (install h cs))), [])) /\
  (forall (h' : Host) (c : RoutingCategory),
     network h' (request_of_path h p) = None ->
     outcome (strategy h' c (request_of_path h p)
                (storage_after (activate (storage_after (install h cs)))))
       = Fulfilled r /\
     storage_after (strategy h' c (request_of_path h p)
                      (storage_after (activate (storage_after (install h cs)))))
       = storage_after (activate (storage_after (install h cs)))).
Proof.
  intros Hwf Hserved Hp Hnet.
  assert (Hhit : cached_for (request_of_path h p)
                   (storage_after (activate (storage_after (install h cs))))
                 = Some r).
  { rewrite (installed_activated h cs Hwf). unfold cached_for.
    cbn [method request_of_path CS.match_]. rewrite String.eqb_refl.
    now rewrite (install_core_content h cs p Hserved Hp), Hnet. }
  split; [exact Hhit |]. split.
  - intros h'. now apply handleStaticAsset_hit.
  - intros h' c Hdown. destruct c; unfold strategy.
    + now rewrite (handleStaticAsset_hit h' _ _ _ Hhit).
    + rewrite handleHTMLPage_no_ok by (now left).
      unfold html_fallback. now rewrite Hhit.
    + rewrite handleNetworkFirst_run. cbv zeta. now rewrite Hdown, Hhit.
Qed.

Lemma core_assets_available_offline_witness :
  cached_for (request_of_path core_only_host "/tracker.html")
    (storage_after (activate (storage_after (install core_only_host example_storage))))
  = Some (ok_response "/tracker.html") /\
  (forall h' : Host,
     handleStaticAsset h' (request_of_path core_only_host "/tracker.html")
       (storage_after (activate (storage_after (install core_only_host example_storage))))
     = (Fulfilled (ok_response "/tracker.html"),
        storage_after (activate (storage_after (install core_only_host example_storage))),
        [])) /\
  (forall (h' : Host) (c : RoutingCategory),
     network h' (request_of_path core_only_host "/tracker.html") = None ->
     outcome (strategy h' c (request_of_path core_only_host "/tracker.html")
                (storage_after (activate (storage_after
                                            (install core_only_host example_storage)))))
       = Fulfilled (ok_response "/tracker.html") /\
     storage_after (strategy h' c (request_of_path core_only_host "/tracker.html")
                      (storage_after (activate (storage_after
                                                  (install core_only_host example_storage)))))
       = storage_after (activate (storage_after (install core_only_host example_storage)))).
Proof.
  apply (core_assets_available_offline core_only_host example_storage
           "/tracker.html" (ok_response "/tracker.html")).
  - unfold CS.wf. apply (bool_decide_unpack _). vm_compute. exact I.
  - repeat constructor; eexists; repeat split; vm_compute; reflexivity.
  - repeat constructor.
  - reflexivity.
Defined.
